(** * Schedule scraper: a shallow embedding of [main.py]

    The development follows the script top to bottom: the Python
    primitives it leans on ([str.strip], [str.lower], [int], [str]),
    the part of the BeautifulSoup tree API it calls, the pydantic
    [Game] model, [BaseScraper] / [PfrScraper], [save_to_csv] and the
    entry point.  Effects (HTTP requests issued, files written,
    exceptions raised) are threaded through a small state-and-exception
    monad.

    Conventions.
    - A Python [str] is a Rocq [string]; a character [c : ascii] stands
      for the code point of the same number, so the strings covered are
      those over code points 0..255.
    - A Python [int] is a [Z].
    - A dict whose key order is observable ([model_dump], [keys()],
      [values()]) is an association list in insertion order.
    - The file system is a finite map from file names to contents. *)

From Stdlib Require Import ZArith List String Ascii Bool Lia DecimalString.
From Stdlib Require Import DecimalPos DecimalZ FinFun.
From stdpp Require Import gmap strings.
Import ListNotations.

Local Open Scope string_scope.
Local Open Scope Z_scope.
Set Warnings "-register-all".

(** ** Python built-ins used by the script *)

Module Py.

Definition ord (c : ascii) : Z := Z.of_N (N_of_ascii c).

(** [str.isspace] on one character, code points below 256. *)
Definition isspace (c : ascii) : bool :=
  let n := ord c in
  ((9 <=? n) && (n <=? 13)) || ((28 <=? n) && (n <=? 32))
  || (n =? 133) || (n =? 160).

Fixpoint lstrip (s : string) : string :=
  match s with
  | String c s' => if isspace c then lstrip s' else s
  | EmptyString => EmptyString
  end.

Fixpoint rstrip (s : string) : string :=
  match s with
  | EmptyString => EmptyString
  | String c s' =>
      match rstrip s' with
      | EmptyString => if isspace c then EmptyString else String c EmptyString
      | r => String c r
      end
  end.

(** [s.strip()] with no argument. *)
Definition strip (s : string) : string := rstrip (lstrip s).

(** [str.lower] on one character: A-Z, and the upper-case letters of
    the range 192..222 (215 is the multiplication sign). *)
Definition lower_char (c : ascii) : ascii :=
  let n := ord c in
  if ((65 <=? n) && (n <=? 90))
     || ((192 <=? n) && (n <=? 222) && negb (n =? 215))
  then ascii_of_N (Z.to_N (n + 32)) else c.

Fixpoint lower (s : string) : string :=
  match s with
  | EmptyString => EmptyString
  | String c s' => String (lower_char c) (lower s')
  end.

(** Truth value of a string: [if s:] holds for non-empty strings. *)
Definition truthy (s : string) : bool :=
  match s with EmptyString => false | String _ _ => true end.

(** [str(n)] for an int. *)
Definition str_of_int (n : Z) : string := NilZero.string_of_int (Z.to_int n).

(** *** [int(s)] for a string, base ten

    The literal may be surrounded by white space, may carry one sign,
    and may group its digits with single underscores.  Anything else
    is a [ValueError], rendered here as [None]. *)

Definition digit_value (c : ascii) : option Z :=
  let n := ord c in
  if (48 <=? n) && (n <=? 57) then Some (n - 48) else None.

(** White space as [int] sees it: the C set, plus the two non-ASCII
    blanks below 256. *)
Definition int_isspace (c : ascii) : bool :=
  let n := ord c in
  ((9 <=? n) && (n <=? 13)) || (n =? 32) || (n =? 133) || (n =? 160).

Fixpoint int_lstrip (s : string) : string :=
  match s with
  | String c s' => if int_isspace c then int_lstrip s' else s
  | EmptyString => EmptyString
  end.

Fixpoint int_rstrip (s : string) : string :=
  match s with
  | EmptyString => EmptyString
  | String c s' =>
      match int_rstrip s' with
      | EmptyString => if int_isspace c then EmptyString else String c EmptyString
      | r => String c r
      end
  end.

(** The interpreter refuses decimal literals of more than this many
    digits (its default setting). *)
Definition int_max_str_digits : Z := 4300.

(** Digits after a first digit: [acc] is the value read so far and
    [n] the number of digits read.  An underscore must be followed by
    a digit. *)
Fixpoint int_digits (s : string) (acc n : Z) : option (Z * Z) :=
  match s with
  | EmptyString => Some (acc, n)
  | String c s' =>
      match digit_value c with
      | Some d => int_digits s' (10 * acc + d) (n + 1)
      | None =>
          if Ascii.eqb c "_" then
            match s' with
            | String c' s'' =>
                match digit_value c' with
                | Some d => int_digits s'' (10 * acc + d) (n + 1)
                | None => None
                end
            | EmptyString => None
            end
          else None
      end
  end.

Definition int_unsigned (s : string) : option Z :=
  match s with
  | String c s' =>
      match digit_value c with
      | Some d =>
          match int_digits s' d 1 with
          | Some (v, n) => if int_max_str_digits <? n then None else Some v
          | None => None
          end
      | None => None
      end
  | EmptyString => None
  end.

Definition int_of_str (s : string) : option Z :=
  match int_rstrip (int_lstrip s) with
  | String "-" s' => option_map Z.opp (int_unsigned s')
  | String "+" s' => int_unsigned s'
  | s' => int_unsigned s'
  end.

End Py.

(** ** Exceptions and the two monads *)

Inductive transport_failure := Timeout | ConnectionRefused | OtherTransport.

Inductive exn :=
| AttributeError                          (* attribute access on [None] *)
| ValueError                              (* bad unpacking, bad [int] literal, empty data *)
| ValidationError                         (* pydantic rejects a field *)
| TransportError (f : transport_failure)  (* raised by the HTTP client *)
| BrowserError                            (* raised by the headless browser *)
| OSError.                                (* [open] fails *)

Inductive result (A : Type) :=
| Ok (a : A)
| Raise (e : exn).
Arguments Ok {A} a.
Arguments Raise {A} e.

#[global] Instance result_ret : MRet result := fun _ a => Ok a.
#[global] Instance result_bind : MBind result := fun _ _ f r =>
  match r with
  | Ok a => f a
  | Raise e => Raise e
  end.

(** [x.attr] where [x] may be [None]. *)
Definition not_none {A} (o : option A) : result A :=
  match o with
  | Some a => Ok a
  | None => Raise AttributeError
  end.

(** [a, b = l] and [_, a, b = l]. *)
Definition unpack2 {A} (l : list A) : result (A * A) :=
  match l with
  | [a; b] => Ok (a, b)
  | _ => Raise ValueError
  end.

Definition unpack3 {A} (l : list A) : result (A * A * A) :=
  match l with
  | [a; b; c] => Ok (a, b, c)
  | _ => Raise ValueError
  end.

(** [int(s)], raising. *)
Definition int (s : string) : result Z :=
  match Py.int_of_str s with
  | Some n => Ok n
  | None => Raise ValueError
  end.

(** Apply [f] to each element in order, stopping at the first error. *)
Fixpoint map_result {A B} (f : A -> result B) (l : list A) : result (list B) :=
  match l with
  | [] => Ok []
  | a :: rest =>
      b ← f a;
      bs ← map_result f rest;
      mret (b :: bs)
  end.

(** ** The BeautifulSoup tree and the queries the script makes *)

Module Bs4.

(** A parsed document.  [NavigableString] is visible text, [Comment]
    stands for the string kinds that [.text] leaves out.  A tag has
    its name, the tokens of its [class] attribute, its other
    attributes, and its children in document order. *)
Inductive PageElement :=
| NavigableString (s : string)
| Comment (s : string)
| Tag (name : string) (classes : list string)
      (attrs : list (string * string)) (contents : list PageElement).

(** Everything below an element, in document order. *)
Fixpoint descendants (e : PageElement) : list PageElement :=
  match e with
  | Tag _ _ _ cs => flat_map (fun c => c :: descendants c) cs
  | _ => []
  end.

(** [e.text] *)
Fixpoint text (e : PageElement) : string :=
  match e with
  | NavigableString s => s
  | Comment _ => ""
  | Tag _ _ _ cs => String.concat "" (map text cs)
  end.

Definition has_class (class_ : option string) (classes : list string) : bool :=
  match class_ with
  | None => true
  | Some c => existsb (String.eqb c) classes
  end.

Definition matches (name : string) (class_ : option string) (e : PageElement) : bool :=
  match e with
  | Tag n classes _ _ => String.eqb n name && has_class class_ classes
  | _ => false
  end.

(** [e.find_all(name, class_=...)] and [e.find(name, class_=...)] *)
Definition find_all (name : string) (class_ : option string) (e : PageElement)
  : list PageElement :=
  filter (matches name class_) (descendants e).

Definition find (name : string) (class_ : option string) (e : PageElement)
  : option PageElement :=
  head (find_all name class_ e).

Fixpoint lookup_attr (key : string) (attrs : list (string * string)) : option string :=
  match attrs with
  | [] => None
  | (k, v) :: rest => if String.eqb k key then Some v else lookup_attr key rest
  end.

(** [e.get(key)] *)
Definition get (key : string) (e : PageElement) : option string :=
  match e with
  | Tag _ _ attrs _ => lookup_attr key attrs
  | _ => None
  end.

End Bs4.
Import Bs4.

(** ** Values and dicts *)

Inductive pyval :=
| PyNone
| PyBool (b : bool)
| PyInt (n : Z)
| PyStr (s : string).

(** The text [str(x)] returns, when it returns. *)
Definition show (x : pyval) : string :=
  match x with
  | PyNone => "None"
  | PyBool true => "True"
  | PyBool false => "False"
  | PyInt n => Py.str_of_int n
  | PyStr s => s
  end.

(** The least magnitude with more than [Py.int_max_str_digits] decimal
    digits. *)
Definition str_digits_bound : Z := Eval vm_compute in 10 ^ Py.int_max_str_digits.

(** The interpreter refuses to print an int of more than
    [Py.int_max_str_digits] digits; every other value prints. *)
Definition printable (x : pyval) : bool :=
  match x with
  | PyInt n => Z.abs n <? str_digits_bound
  | _ => true
  end.

(** [str(x)], raising. *)
Definition str (x : pyval) : result string :=
  if printable x then Ok (show x) else Raise ValueError.

(** A dict with string keys, in insertion order. *)
Definition dict := list (string * pyval).

Definition keys (d : dict) : list pyval := map (fun kv => PyStr (fst kv)) d.
Definition values (d : dict) : list pyval := map snd d.

Fixpoint getitem (d : dict) (key : string) : option pyval :=
  match d with
  | [] => None
  | (k, v) :: rest => if String.eqb k key then Some v else getitem rest key
  end.

(** ** The [Game] model *)

Record Game := mkGame {
  week : Z;
  season : Z;
  url : string;
  home_team : string;
  away_team : string;
  home_score : option Z;
  away_score : option Z;
  completed : bool
}.

(** [Game(home_team=.., away_team=.., week=.., season=.., url=..)]: the
    three remaining fields take their defaults; [url] is what
    [link.get("href")] returned and must be a string. *)
Definition Game_init (home_team away_team : string) (week season : Z)
    (url : option string) : result Game :=
  match url with
  | Some u => Ok (mkGame week season u home_team away_team None None false)
  | None => Raise ValidationError
  end.

Definition set_away_score (g : Game) (n : Z) : Game :=
  mkGame (week g) (season g) (url g) (home_team g) (away_team g)
         (home_score g) (Some n) (completed g).

Definition set_home_score (g : Game) (n : Z) : Game :=
  mkGame (week g) (season g) (url g) (home_team g) (away_team g)
         (Some n) (away_score g) (completed g).

Definition set_completed (g : Game) (b : bool) : Game :=
  mkGame (week g) (season g) (url g) (home_team g) (away_team g)
         (home_score g) (away_score g) b.

Definition opt_int (o : option Z) : pyval :=
  match o with
  | Some n => PyInt n
  | None => PyNone
  end.

(** [game.model_dump()]: the fields in declaration order. *)
Definition model_dump (g : Game) : dict :=
  [ ("week", PyInt (week g));
    ("season", PyInt (season g));
    ("url", PyStr (url g));
    ("home_team", PyStr (home_team g));
    ("away_team", PyStr (away_team g));
    ("home_score", opt_int (home_score g));
    ("away_score", opt_int (away_score g));
    ("completed", PyBool (completed g)) ].

(** ** The outside world

    [Env] is what the run cannot control: what the remote answers to a
    GET, what the browser renders, which files can be opened for
    writing.  A response body is represented by the tree that
    [BeautifulSoup(body, "html.parser")] builds from it (the parser is
    total).  [State] is what the run changes: the requests issued so
    far and the files on disk. *)

Inductive http_outcome :=
| Response (status_code : Z) (content : PageElement)
| HttpRaises (f : transport_failure).

(** What happens when the browser is asked for a page: starting it
    (playwright, chromium, a new page) fails before any navigation, or
    the navigation or the reading of the page fails, or the page is
    rendered. *)
Inductive browser_outcome :=
| LaunchRaises
| PageRaises
| Rendered (content : PageElement).

Record Env := mkEnv {
  http : string -> string -> http_outcome;   (* base url, relative url *)
  chromium : string -> browser_outcome;      (* absolute url *)
  writable : string -> bool
}.

Record State := mkState {
  requests : list string;         (* urls passed to [client.get], oldest first *)
  navigations : list string;      (* urls passed to [page.goto], oldest first *)
  files : gmap string string
}.

Definition M (A : Type) : Type := State -> result A * State.

#[global] Instance M_ret : MRet M := fun _ a st => (Ok a, st).
#[global] Instance M_bind : MBind M := fun _ _ f c st =>
  match c st with
  | (Ok a, st') => f a st'
  | (Raise e, st') => (Raise e, st')
  end.

Definition raise {A} (e : exn) : M A := fun st => (Raise e, st).

Definition lift {A} (r : result A) : M A := fun st => (r, st).

Section Scraper.

Context (env : Env).

(** *** [BaseScraper] *)

Record BaseScraper := mkBaseScraper { base_url : string }.

(** [self.client.get(url)] followed by [page.content] read through
    the parser.  The client returns whatever response arrives, of any
    status, and raises only when the transport fails. *)
Definition client_get (self : BaseScraper) (url : string) : M PageElement :=
  fun st =>
    let st' := mkState (requests st ++ [url]) (navigations st) (files st) in
    match http env (base_url self) url with
    | Response _ content => (Ok content, st')
    | HttpRaises f => (Raise (TransportError f), st')
    end.

Definition _get_static_soup (self : BaseScraper) (url : string) : M PageElement :=
  page ← client_get self url;
  mret page.

Definition _get_dynamic_soup (self : BaseScraper) (url : string) : M PageElement :=
  fun st =>
    let target := base_url self +:+ "/" +:+ url in
    let st' := mkState (requests st) (navigations st ++ [target]) (files st) in
    match chromium env target with
    | LaunchRaises => (Raise BrowserError, st)
    | PageRaises => (Raise BrowserError, st')
    | Rendered content => (Ok content, st')
    end.

Definition get_soup (self : BaseScraper) (url : string) (dynamic : bool) : M PageElement :=
  if dynamic then _get_dynamic_soup self url
  else _get_static_soup self url.

(** *** [PfrScraper] *)

Definition PfrScraper : BaseScraper :=
  mkBaseScraper "https://www.pro-football-reference.com".

(** Lines 132-145: build the model, then attach the scores when both
    score strings are non-empty. *)
Definition build_game (home away : string) (week year : Z) (href : option string)
    (home_score away_score : string) (link_text : string) : result Game :=
  game ← Game_init home away week year href;
  if Py.truthy home_score && Py.truthy away_score then
    a ← int away_score;
    let game := set_away_score game a in
    h ← int home_score;
    let game := set_home_score game h in
    mret (set_completed game (String.eqb (Py.lower (Py.strip link_text)) "final"))
  else mret game.

(** The body of the inner loop, lines 109-148, for the page of week
    [i + 1]: from one game summary to the dict appended to [games]. *)
Definition scrape_summary (i year : Z) (summary : PageElement) : result dict :=
  teams ← not_none (find "table" (Some "teams") summary);
  '(_, away_row, home_row) ← unpack3 (find_all "tr" None teams);
  '(away, link) ← unpack2 (find_all "a" None away_row);
  let home := find "a" None home_row in
  home ← not_none home;
  let home := Py.strip (text home) in
  let away := Py.strip (text away) in
  away_cell ← not_none (find "td" (Some "right") away_row);
  let away_score := Py.strip (text away_cell) in
  home_cell ← not_none (find "td" (Some "right") home_row);
  let home_score := Py.strip (text home_cell) in
  game ← build_game home away (i + 1) year (get "href" link)
                    home_score away_score (text link);
  mret (model_dump game).

(** [for summary in summaries: ... games.append(...)] *)
Fixpoint for_summaries (i year : Z) (summaries : list PageElement) (games : list dict)
  : result (list dict) :=
  match summaries with
  | [] => Ok games
  | summary :: rest =>
      d ← scrape_summary i year summary;
      for_summaries i year rest (games ++ [d])
  end.

Definition week_url (year i : Z) : string :=
  "years/" +:+ Py.str_of_int year +:+ "/week_" +:+ Py.str_of_int (i + 1) +:+ ".htm".

(** [for i in range(18): ...] over the remaining values of [i]. *)
Fixpoint for_weeks (self : BaseScraper) (year : Z) (range : list Z) (games : list dict)
  : M (list dict) :=
  match range with
  | [] => mret games
  | i :: rest =>
      soup ← get_soup self (week_url year i) false;
      let summaries := find_all "div" (Some "game_summary") soup in
      games ← lift (for_summaries i year summaries games);
      for_weeks self year rest games
  end.

(** [range(n)] *)
Definition range (n : nat) : list Z := map Z.of_nat (seq 0 n).

Definition scrape_schedule (self : BaseScraper) : M (list dict) :=
  let year := 2023 in
  let games := [] in
  for_weeks self year (range 18) games.

(** *** [save_to_csv] *)

(** [open(filename, "w")]: create or truncate. *)
Definition open_w (filename : string) : M unit :=
  fun st =>
    if writable env filename
    then (Ok tt, mkState (requests st) (navigations st) (<[filename := ""]> (files st)))
    else (Raise OSError, st).

(** [file.write(s)] on the file opened under [filename]. *)
Definition write (filename : string) (s : string) : M unit :=
  fun st =>
    let old := default "" (files st !! filename) in
    (Ok tt, mkState (requests st) (navigations st) (<[filename := old +:+ s]> (files st))).

(** [",".join([str(x) for x in line]) + "\n"] *)
Definition csv_line (line : list pyval) : result string :=
  cells ← map_result str line;
  mret (String.concat "," cells +:+ String "010" "").

(** [for line in csv_rows: file.write(...)]: the text of a line is
    built before it is written. *)
Fixpoint write_rows (filename : string) (csv_rows : list (list pyval)) : M unit :=
  match csv_rows with
  | [] => mret tt
  | line :: rest =>
      text ← lift (csv_line line);
      _ ← write filename text;
      write_rows filename rest
  end.

Definition save_to_csv (filename : string) (data : list dict) : M unit :=
  match data with
  | [] => raise ValueError
  | first :: _ =>
      let csv_rows := keys first :: map values data in
      _ ← open_w filename;
      write_rows filename csv_rows
  end.

(** *** The entry point *)

Definition main : M unit :=
  let scraper := PfrScraper in
  games ← scrape_schedule scraper;
  save_to_csv "2023_nfl_schedule.csv" games.

End Scraper.

(** ** Reference definitions used in the statements *)

(** The records of week [i + 1], in the order of the game summaries on
    that week's page. *)
Definition week_games (env : Env) (self : BaseScraper) (year i : Z) : result (list dict) :=
  match http env (base_url self) (week_url year i) with
  | Response _ soup =>
      map_result (scrape_summary i year) (find_all "div" (Some "game_summary") soup)
  | HttpRaises f => Raise (TransportError f)
  end.

(** A string made of white space only (as [str.isspace] sees it). *)
Fixpoint all_space (s : string) : bool :=
  match s with
  | EmptyString => true
  | String c s' => Py.isspace c && all_space s'
  end.

(** ** Sample markup, shaped like the site's week pages *)

Definition anchor (href text_ : string) : PageElement :=
  Tag "a" [] [("href", href)] [NavigableString text_].

Definition team_row (classes : list string) (team score : string)
    (gamelink : list PageElement) : PageElement :=
  Tag "tr" classes []
      [ Tag "td" [] [] [anchor "/teams/club/2023.htm" team];
        Tag "td" ["right"] [] [NavigableString score];
        Tag "td" ["right"; "gamelink"] [] gamelink ].

Definition date_row : PageElement :=
  Tag "tr" ["date"] [] [Tag "td" [] [("colspan", "3")] [NavigableString "Sep 7, 2023"]].

Definition sample_summary (away away_score home home_score link_text href : string)
  : PageElement :=
  Tag "div" ["game_summary"; "expanded"; "nohover"] []
      [ Tag "table" ["teams"] []
            [ Tag "tbody" [] []
                  [ date_row;
                    team_row ["winner"] away away_score [anchor href link_text];
                    team_row ["loser"] home home_score [NavigableString " "] ] ] ].

Definition sample_page (summaries : list PageElement) : PageElement :=
  Tag "[document]" [] []
      [ Tag "html" [] []
            [ Tag "body" [] [] [Tag "div" ["game_summaries"] [] summaries] ] ].

Definition played_summary : PageElement :=
  sample_summary "Detroit Lions" "21" "Kansas City Chiefs" "20" " Final "
                 "/boxscores/202309070kan.htm".

Definition upcoming_summary : PageElement :=
  sample_summary "Carolina Panthers" "" "Atlanta Falcons" "" "Preview"
                 "/boxscores/202309100atl.htm".

(** An environment that serves [first] for week 1 and [other] for every
    other url, always with status 200, and lets every file be written. *)
Definition serve (first other : PageElement) : Env :=
  mkEnv (fun _ url =>
           if String.eqb url "years/2023/week_1.htm"
           then Response 200 first else Response 200 other)
        (fun _ => LaunchRaises)
        (fun _ => true).

Definition st0 : State := mkState [] [] ∅.

Definition sample_env : Env :=
  serve (sample_page [played_summary; upcoming_summary]) (sample_page []).

(** ** The two shapes of a record *)

Definition unplayed (d : dict) : Prop :=
  getitem d "home_score" = Some PyNone /\
  getitem d "away_score" = Some PyNone /\
  getitem d "completed" = Some (PyBool false).

Definition scored (d : dict) : Prop :=
  exists h a : Z,
    getitem d "home_score" = Some (PyInt h) /\
    getitem d "away_score" = Some (PyInt a).

Definition scored_nonneg (d : dict) : Prop :=
  exists h a : Z,
    getitem d "home_score" = Some (PyInt h) /\
    getitem d "away_score" = Some (PyInt a) /\
    0 <= h /\ 0 <= a.

Definition negative_summary : PageElement :=
  sample_summary "Detroit Lions" "-3" "Kansas City Chiefs" "7" "Final"
                 "/boxscores/202309070kan.htm".

Definition negative_env : Env :=
  serve (sample_page [negative_summary]) (sample_page []).

(** The literal, once [int] has trimmed it, starts with a minus sign. *)
Definition has_minus_sign (s : string) : bool :=
  match Py.int_rstrip (Py.int_lstrip s) with
  | String "-" _ => true
  | _ => false
  end.

Definition one_score_only (d : dict) : Prop :=
  exists n : Z,
    (getitem d "home_score" = Some (PyInt n) /\ getitem d "away_score" = Some PyNone) \/
    (getitem d "home_score" = Some PyNone /\ getitem d "away_score" = Some (PyInt n)).

Definition played_game : Game :=
  mkGame 1 2023 "/boxscores/202309070kan.htm" "Kansas City Chiefs" "Detroit Lions"
         (Some 20) (Some 21) true.

Definition upcoming_game : Game :=
  mkGame 1 2023 "/boxscores/202309100atl.htm" "Atlanta Falcons" "Carolina Panthers"
         None None false.

Definition negative_game : Game :=
  mkGame 1 2023 "/boxscores/202309070kan.htm" "Kansas City Chiefs" "Detroit Lions"
         (Some 7) (Some (-3)) true.

(** ** Malformed game summaries *)

Definition wrong_row_count (summary : PageElement) : Prop :=
  exists teams,
    find "table" (Some "teams") summary = Some teams /\
    length (find_all "tr" None teams) <> 3%nat.

Definition wrong_away_links (summary : PageElement) : Prop :=
  exists teams date_row away_row home_row,
    find "table" (Some "teams") summary = Some teams /\
    find_all "tr" None teams = [date_row; away_row; home_row] /\
    length (find_all "a" None away_row) <> 2%nat.

(** The two score strings the extractor reads off a summary. *)
Definition score_texts (summary : PageElement) (home_score away_score : string) : Prop :=
  exists teams date_row away_row home_row away_cell home_cell,
    find "table" (Some "teams") summary = Some teams /\
    find_all "tr" None teams = [date_row; away_row; home_row] /\
    find "td" (Some "right") away_row = Some away_cell /\
    find "td" (Some "right") home_row = Some home_cell /\
    away_score = Py.strip (text away_cell) /\
    home_score = Py.strip (text home_cell).

(** Some score text is non-empty and not an integer literal. *)
Definition some_score_unparseable (summary : PageElement) : Prop :=
  exists hs as_, score_texts summary hs as_ /\
    ((hs <> "" /\ Py.int_of_str hs = None) \/ (as_ <> "" /\ Py.int_of_str as_ = None)).

(** Both score texts are non-empty and one is not an integer literal. *)
Definition both_scores_one_unparseable (summary : PageElement) : Prop :=
  exists hs as_, score_texts summary hs as_ /\
    hs <> "" /\ as_ <> "" /\ (Py.int_of_str hs = None \/ Py.int_of_str as_ = None).

Definition output_file : string := "2023_nfl_schedule.csv".

Definition two_row_summary : PageElement :=
  Tag "div" ["game_summary"] []
      [ Tag "table" ["teams"] []
            [ Tag "tbody" [] []
                  [ team_row ["winner"] "Detroit Lions" "21"
                             [anchor "/boxscores/202309070kan.htm" "Final"];
                    team_row ["loser"] "Kansas City Chiefs" "20" [NavigableString " "] ] ] ].

(** The away cell reads "OT", the home cell is empty. *)
Definition lone_text_summary : PageElement :=
  sample_summary "Detroit Lions" "OT" "Kansas City Chiefs" "" "Preview"
                 "/boxscores/202309070kan.htm".

Definition lone_text_game : Game :=
  mkGame 1 2023 "/boxscores/202309070kan.htm" "Kansas City Chiefs" "Detroit Lions"
         None None false.

Definition lone_text_env : Env :=
  serve (sample_page [lone_text_summary]) (sample_page []).

Definition two_row_env : Env :=
  serve (sample_page [played_summary; two_row_summary]) (sample_page [upcoming_summary]).



Definition no_home_link_summary : PageElement :=
  Tag "div" ["game_summary"] []
      [ Tag "table" ["teams"] []
            [ Tag "tbody" [] []
                  [ date_row;
                    team_row ["winner"] "Detroit Lions" "21"
                             [anchor "/boxscores/202309070kan.htm" "Final"];
                    Tag "tr" ["loser"] []
                        [ Tag "td" [] [] [NavigableString "Kansas City Chiefs"];
                          Tag "td" ["right"] [] [NavigableString "20"] ] ] ] ].

(** ** The weeks of a season *)

(** The path of week [n] of a season, as the site lays it out. *)
Definition week_path (season n : Z) : string :=
  "years/" +:+ Py.str_of_int season +:+ "/week_" +:+ Py.str_of_int n +:+ ".htm".

Definition weeks_1_18 : list Z := map Z.of_nat (seq 1 18).

Definition pfr_origin : string := "https://www.pro-football-reference.com".

(** ** Reading a file back line by line *)

Definition newline : ascii := "010"%char.

(** The lines of a text, each without its terminating newline. *)
Fixpoint lines (s : string) : list string :=
  match s with
  | EmptyString => []
  | String c s' =>
      if Ascii.eqb c newline then "" :: lines s'
      else match lines s' with
           | [] => [String c ""]
           | l :: ls => String c l :: ls
           end
  end.

Fixpoint no_newline (s : string) : bool :=
  match s with
  | EmptyString => true
  | String c s' => negb (Ascii.eqb c newline) && no_newline s'
  end.

(** No key and no value of the record prints with a newline in it. *)
Definition one_line_record (d : dict) : bool :=
  forallb (fun kv => no_newline (fst kv) && no_newline (show (snd kv))) d.

(** A text made of the given lines, each terminated by a newline. *)
Definition unlines (ls : list string) : string :=
  fold_right (fun l acc => l +:+ String newline acc) "" ls.

Definition csv_header (first : dict) : string := String.concat "," (map fst first).

Definition csv_row (d : dict) : string := String.concat "," (map show (values d)).

Definition game_keys : list string :=
  ["week"; "season"; "url"; "home_team"; "away_team"; "home_score"; "away_score";
   "completed"].

Definition header_line : string :=
  "week,season,url,home_team,away_team,home_score,away_score,completed".


Definition empty_env : Env := serve (sample_page []) (sample_page []).

(** ** Sample remotes that fail *)

Definition not_found_page : PageElement :=
  Tag "[document]" [] []
      [ Tag "html" [] []
            [ Tag "body" [] [] [Tag "h1" [] [] [NavigableString "Page Not Found (404 error)"]] ] ].

(** Week 1 answers 404 with an error page; the other weeks are served. *)
Definition not_found_env : Env :=
  mkEnv (fun _ url =>
           if String.eqb url "years/2023/week_1.htm"
           then Response 404 not_found_page
           else Response 200 (sample_page [upcoming_summary]))
        (fun _ => LaunchRaises)
        (fun _ => true).

(** Week 3 times out. *)
Definition timeout_env : Env :=
  mkEnv (fun _ url =>
           if String.eqb url "years/2023/week_3.htm"
           then HttpRaises Timeout
           else Response 200 (sample_page [upcoming_summary]))
        (fun _ => LaunchRaises)
        (fun _ => true).

(** ** Further reference definitions *)

(** [s.split(sep)] for a one-character separator. *)
Fixpoint split_on (sep : ascii) (s : string) : list string :=
  match s with
  | EmptyString => [""]
  | String c s' =>
      if Ascii.eqb c sep then "" :: split_on sep s'
      else match split_on sep s' with
           | [] => [String c ""]
           | p :: ps => String c p :: ps
           end
  end.

(** The character [c] does not occur in [s]. *)
Fixpoint lacks (c : ascii) (s : string) : bool :=
  match s with
  | EmptyString => true
  | String x s' => negb (Ascii.eqb x c) && lacks c s'
  end.

(** No key and no value of the record prints with a comma or a newline
    in it, and the record has at least one field. *)
Definition plain_record (d : dict) : bool :=
  match d with
  | [] => false
  | _ => forallb (fun kv => lacks "," (fst kv) && lacks newline (fst kv)
                            && lacks "," (show (snd kv)) && lacks newline (show (snd kv))) d
         && forallb (fun kv => printable (snd kv)) d
  end.

(** The page served for week [i + 1], when there is one. *)
Definition served (env : Env) (self : BaseScraper) (year i : Z) (page : PageElement) : Prop :=
  exists status, http env (base_url self) (week_url year i) = Response status page.

Definition count_summaries (page : PageElement) : nat :=
  length (find_all "div" (Some "game_summary") page).


Definition no_href_summary : PageElement :=
  Tag "div" ["game_summary"] []
      [ Tag "table" ["teams"] []
            [ Tag "tbody" [] []
                  [ date_row;
                    team_row ["winner"] "Detroit Lions" ""
                             [Tag "a" [] [] [NavigableString "Preview"]];
                    team_row ["loser"] "Kansas City Chiefs" "" [NavigableString " "] ] ] ].


(** Every lookup the extractor makes in [summary] succeeds, with these
    results. *)
Definition summary_shape (summary teams date_row away_row home_row
                          away link home away_cell home_cell : PageElement) : Prop :=
  find "table" (Some "teams") summary = Some teams /\
  find_all "tr" None teams = [date_row; away_row; home_row] /\
  find_all "a" None away_row = [away; link] /\
  find "a" None home_row = Some home /\
  find "td" (Some "right") away_row = Some away_cell /\
  find "td" (Some "right") home_row = Some home_cell.

Definition roster_a : dict := [("name", PyStr "Lions"); ("wins", PyInt 12)].
Definition roster_b : dict := [("name", PyStr "Chiefs"); ("wins", PyInt 11)].
Definition roster_b_renamed : dict := [("team", PyStr "Chiefs"); ("won", PyInt 11)].



(** ** Printing a record *)

(** Every value of the record prints. *)
Definition printable_record (d : dict) : bool :=
  forallb (fun kv => printable (snd kv)) d.

(** What writing [rows] one after the other appends to the file, and
    how it ends: the text of the rows up to the first one that does not
    print, and the exception raised there, if any. *)
Fixpoint written (rows : list (list pyval)) : string * result unit :=
  match rows with
  | [] => ("", Ok tt)
  | row :: rest =>
      match csv_line row with
      | Ok text => (text +:+ fst (written rest), snd (written rest))
      | Raise e => ("", Raise e)
      end
  end.



(** ** Monad laws in the form the proofs use *)

Lemma result_bind_Ok {A B} (c : result A) (k : A -> result B) (b : B) :
  (a ← c; k a) = Ok b -> exists a, c = Ok a /\ k a = Ok b.
Proof.
  destruct c as [a|e]; cbn; intros H.
  - exists a. split; [reflexivity | exact H].
  - discriminate H.
Qed.

Lemma M_bind_run {A B} (c : M A) (k : A -> M B) (st : State) :
  (a ← c; k a) st =
  match c st with
  | (Ok a, st') => k a st'
  | (Raise e, st') => (Raise e, st')
  end.
Proof. reflexivity. Qed.

Ltac inv_bind H :=
  let a := fresh "a" in
  let Ha := fresh "H" a in
  apply result_bind_Ok in H; destruct H as (a & Ha & H).

(** ** The loops as maps *)

Lemma map_result_Ok {A B} (f : A -> result B) (l : list A) (bs : list B) :
  map_result f l = Ok bs <-> Forall2 (fun a b => f a = Ok b) l bs.
Proof.
  revert bs. induction l as [|a l IH]; intros bs; cbn.
  - split.
    + intros [= <-]. constructor.
    + intros H. inversion H. reflexivity.
  - split.
    + intros H. inv_bind H. inv_bind H. injection H as <-.
      constructor; [assumption | apply IH; assumption].
    + intros H. inversion H as [|? b ? bs' Hb Hbs]; subst.
      rewrite Hb. cbn. apply IH in Hbs. rewrite Hbs. reflexivity.
Qed.

Lemma map_result_Raise {A B} (f : A -> result B) (l : list A) (a : A) (e : exn) :
  In a l -> f a = Raise e -> exists e', map_result f l = Raise e'.
Proof.
  induction l as [|x l IH]; intros Hin Hf; [destruct Hin|].
  cbn. destruct (f x) as [b|e0] eqn:Hx; cbn; [|eauto].
  destruct Hin as [->|Hin]; [congruence|].
  destruct (IH Hin Hf) as [e' ->]. cbn. eauto.
Qed.

Lemma for_summaries_map (i year : Z) (summaries : list PageElement) (games : list dict) :
  for_summaries i year summaries games =
  (ds ← map_result (scrape_summary i year) summaries; mret (games ++ ds)%list).
Proof.
  revert games. induction summaries as [|s rest IH]; intros games; cbn.
  - rewrite app_nil_r. reflexivity.
  - destruct (scrape_summary i year s) as [d|e]; cbn; [|reflexivity].
    rewrite IH. destruct (map_result _ rest) as [ds|e]; cbn; [|reflexivity].
    rewrite <- app_assoc. reflexivity.
Qed.

(** One iteration of the outer loop. *)
Lemma for_weeks_cons (env : Env) (self : BaseScraper) (year i : Z) (rest : list Z)
    (games : list dict) (st : State) :
  for_weeks env self year (i :: rest) games st =
  let st1 := mkState (requests st ++ [week_url year i]) (navigations st) (files st) in
  match week_games env self year i with
  | Ok ds => for_weeks env self year rest (games ++ ds) st1
  | Raise e => (Raise e, st1)
  end.
Proof.
  cbn [for_weeks]. rewrite M_bind_run.
  unfold week_games, get_soup, _get_static_soup.
  rewrite M_bind_run. unfold client_get.
  destruct (http env (base_url self) (week_url year i)) as [status soup|f]; cbn; [|reflexivity].
  rewrite M_bind_run. unfold lift. rewrite for_summaries_map.
  destruct (map_result _ _) as [ds|e]; reflexivity.
Qed.

Lemma for_weeks_result (env : Env) (self : BaseScraper) (year : Z) (range : list Z)
    (games : list dict) (st : State) :
  fst (for_weeks env self year range games st) =
  (gss ← map_result (week_games env self year) range; mret (games ++ concat gss)%list).
Proof.
  revert games st. induction range as [|i rest IH]; intros games st.
  - cbn. rewrite app_nil_r. reflexivity.
  - rewrite for_weeks_cons. cbn zeta.
    cbn [map_result]. destruct (week_games env self year i) as [ds|e]; cbn; [|reflexivity].
    rewrite IH. destruct (map_result _ rest) as [gss|e]; cbn; [|reflexivity].
    rewrite app_assoc. reflexivity.
Qed.

(** The run only ever appends requests, in the order of the range, and
    touches neither the browser nor the disk; a run that returns has
    gone through the whole range. *)
Lemma for_weeks_state (env : Env) (self : BaseScraper) (year : Z) (range : list Z)
    (games : list dict) (st : State) :
  let out := for_weeks env self year range games st in
  files (snd out) = files st /\
  navigations (snd out) = navigations st /\
  exists k : nat,
    (k <= length range)%nat /\
    requests (snd out) = (requests st ++ map (week_url year) (firstn k range))%list /\
    (forall gs, fst out = Ok gs -> k = length range).
Proof.
  revert games st. induction range as [|i rest IH]; intros games st; cbn zeta.
  - cbn. split; [reflexivity|]. split; [reflexivity|].
    exists 0%nat. cbn. rewrite app_nil_r. split; [lia|]. split; reflexivity.
  - rewrite for_weeks_cons. cbn zeta.
    destruct (week_games env self year i) as [ds|e].
    + specialize (IH (games ++ ds)%list
                     (mkState (requests st ++ [week_url year i]) (navigations st) (files st))).
      cbn zeta in IH. destruct IH as (Hf & Hn & k & Hk & Hr & Hall).
      split; [exact Hf|]. split; [exact Hn|].
      exists (S k). split; [cbn; lia|]. split.
      * rewrite Hr. cbn. rewrite <- app_assoc. reflexivity.
      * intros gs Hgs. cbn. f_equal. eapply Hall. exact Hgs.
    + cbn. split; [reflexivity|]. split; [reflexivity|].
      exists 1%nat. split; [lia|]. split.
      * cbn. destruct rest; reflexivity.
      * intros gs [=].
Qed.

(** ** Facts about [strip] and [lower] *)

Lemma append_String (c : ascii) (s t : string) : String c s +:+ t = String c (s +:+ t).
Proof. reflexivity. Qed.

Lemma append_empty (t : string) : "" +:+ t = t.
Proof. reflexivity. Qed.

Lemma lstrip_spaces (ws s : string) :
  all_space ws = true -> Py.lstrip (ws +:+ s) = Py.lstrip s.
Proof.
  induction ws as [|c ws IH]; [reflexivity|].
  cbn [all_space]. intros H. apply andb_prop in H as [Hc Hws].
  rewrite append_String. cbn [Py.lstrip]. rewrite Hc. auto.
Qed.

Lemma rstrip_spaces (ws : string) : all_space ws = true -> Py.rstrip ws = "".
Proof.
  induction ws as [|c ws IH]; cbn [all_space Py.rstrip]; [reflexivity|].
  intros H. apply andb_prop in H as [Hc Hws]. rewrite (IH Hws), Hc. reflexivity.
Qed.

Lemma lower_char_f (c : ascii) : Py.lower_char c = "f"%char -> Py.isspace c = false.
Proof.
  destruct c as [[] [] [] [] [] [] [] []]; vm_compute; intros H;
    first [reflexivity | discriminate H].
Qed.

Lemma lower_char_l (c : ascii) : Py.lower_char c = "l"%char -> Py.isspace c = false.
Proof.
  destruct c as [[] [] [] [] [] [] [] []]; vm_compute; intros H;
    first [reflexivity | discriminate H].
Qed.

(** A word that lower-cases to "final" survives [strip] whatever white
    space surrounds it. *)
Lemma strip_final (ws1 ws2 word : string) :
  all_space ws1 = true -> all_space ws2 = true -> Py.lower word = "final" ->
  Py.strip (ws1 +:+ word +:+ ws2) = word.
Proof.
  intros H1 H2 Hw. unfold Py.strip. rewrite lstrip_spaces by exact H1.
  destruct word as [|c1 [|c2 [|c3 [|c4 [|c5 [|c6 w]]]]]]; try discriminate Hw.
  cbn [Py.lower] in Hw. injection Hw as Hf _ _ _ Hl.
  apply lower_char_f in Hf. apply lower_char_l in Hl.
  rewrite !append_String, append_empty. cbn [Py.lstrip]. rewrite Hf.
  cbn [Py.rstrip]. rewrite (rstrip_spaces ws2 H2), Hl. reflexivity.
Qed.

(** ** [int] yields a negative number only for a signed literal *)

Lemma digit_value_nonneg (c : ascii) (d : Z) : Py.digit_value c = Some d -> 0 <= d.
Proof.
  unfold Py.digit_value. destruct (_ && _) eqn:E; [|discriminate].
  intros [= <-]. apply andb_prop in E as [E _]. lia.
Qed.

Lemma int_digits_nonneg (s : string) :
  (forall acc n v m, 0 <= acc -> Py.int_digits s acc n = Some (v, m) -> 0 <= v) /\
  (forall c acc n v m,
     0 <= acc -> Py.int_digits (String c s) acc n = Some (v, m) -> 0 <= v).
Proof.
  induction s as [|a s [IH1 IH2]].
  - split.
    + intros acc n v m Hacc [= <- _]. exact Hacc.
    + intros c acc n v m Hacc H. cbn in H.
      destruct (Py.digit_value c) as [d|] eqn:Hd.
      * injection H as <- _. apply digit_value_nonneg in Hd. lia.
      * destruct (Ascii.eqb c "_"); discriminate H.
  - split; [exact (IH2 a)|].
    intros c acc n v m Hacc H. cbn [Py.int_digits] in H.
    destruct (Py.digit_value c) as [d|] eqn:Hd.
    + apply digit_value_nonneg in Hd.
      apply (IH2 a (10 * acc + d) (n + 1) v m); [lia | exact H].
    + destruct (Ascii.eqb c "_"); [|discriminate H].
      destruct (Py.digit_value a) as [d|] eqn:Hd'; [|discriminate H].
      apply digit_value_nonneg in Hd'.
      apply (IH1 (10 * acc + d) (n + 1) v m); [lia | exact H].
Qed.

Lemma int_unsigned_nonneg (s : string) (v : Z) : Py.int_unsigned s = Some v -> 0 <= v.
Proof.
  unfold Py.int_unsigned. destruct s as [|c s]; [discriminate|].
  destruct (Py.digit_value c) as [d|] eqn:Hd; [|discriminate].
  destruct (Py.int_digits s d 1) as [[v' n]|] eqn:Hv; [|discriminate].
  destruct (Py.int_max_str_digits <? n); [discriminate|]. intros [= <-].
  apply digit_value_nonneg in Hd.
  exact (proj1 (int_digits_nonneg s) d 1 v' n Hd Hv).
Qed.

Lemma int_of_str_nonneg (s : string) (v : Z) :
  Py.int_of_str s = Some v -> has_minus_sign s = false -> 0 <= v.
Proof.
  unfold Py.int_of_str, has_minus_sign.
  destruct (Py.int_rstrip (Py.int_lstrip s)) as [|c r]; [discriminate|].
  destruct c as [[] [] [] [] [] [] [] []]; intros H Hsign;
    try discriminate Hsign; apply int_unsigned_nonneg in H; exact H.
Qed.

(** ** What one record is made from *)

Lemma build_game_Ok (home away : string) (w y : Z) (href : option string)
    (hs as_ lt : string) (g : Game) :
  build_game home away w y href hs as_ lt = Ok g ->
  exists u, href = Some u /\
    week g = w /\ season g = y /\ url g = u /\ home_team g = home /\ away_team g = away /\
    if Py.truthy hs && Py.truthy as_
    then exists a h, Py.int_of_str as_ = Some a /\ Py.int_of_str hs = Some h /\
                     away_score g = Some a /\ home_score g = Some h /\
                     completed g = String.eqb (Py.lower (Py.strip lt)) "final"
    else away_score g = None /\ home_score g = None /\ completed g = false.
Proof.
  unfold build_game. intros H. inv_bind H.
  destruct href as [u|]; [|discriminate Ha]. injection Ha as <-.
  exists u. split; [reflexivity|].
  destruct (Py.truthy hs && Py.truthy as_).
  - inv_bind H. inv_bind H. injection H as <-.
    unfold int in Ha, Ha0.
    destruct (Py.int_of_str as_) as [a'|]; [|discriminate Ha]. injection Ha as <-.
    destruct (Py.int_of_str hs) as [h'|]; [|discriminate Ha0]. injection Ha0 as <-.
    cbn. repeat split. exists a', h'. repeat split.
  - injection H as <-. cbn. repeat split.
Qed.

(** A summary that yields a record has the expected shape, and the
    record is built from the strings found there. *)
Lemma scrape_summary_Ok (i year : Z) (summary : PageElement) (d : dict) :
  scrape_summary i year summary = Ok d ->
  exists teams date_row away_row home_row away link home away_cell home_cell g,
    find "table" (Some "teams") summary = Some teams /\
    find_all "tr" None teams = [date_row; away_row; home_row] /\
    find_all "a" None away_row = [away; link] /\
    find "a" None home_row = Some home /\
    find "td" (Some "right") away_row = Some away_cell /\
    find "td" (Some "right") home_row = Some home_cell /\
    build_game (Py.strip (text home)) (Py.strip (text away)) (i + 1) year
               (get "href" link)
               (Py.strip (text home_cell)) (Py.strip (text away_cell))
               (text link) = Ok g /\
    d = model_dump g.
Proof.
  unfold scrape_summary. intros H.
  inv_bind H. rename a into teams.
  inv_bind H. destruct a as [[r0 away_row] home_row].
  inv_bind H. destruct a as [away link].
  inv_bind H. rename a into home.
  inv_bind H. rename a into away_cell.
  inv_bind H. rename a into home_cell.
  inv_bind H. rename a into g. injection H as <-.
  destruct (find "table" (Some "teams") summary) as [t|] eqn:Et; [|discriminate Ha].
  injection Ha as ->.
  unfold unpack3 in Ha0.
  destruct (find_all "tr" None teams) as [|x1 [|x2 [|x3 [|]]]] eqn:Er; try discriminate Ha0.
  injection Ha0 as -> -> ->.
  unfold unpack2 in Ha1.
  destruct (find_all "a" None away_row) as [|y1 [|y2 [|]]] eqn:Ea; try discriminate Ha1.
  injection Ha1 as -> ->.
  destruct (find "a" None home_row) as [hm|] eqn:Eh; [|discriminate Ha2].
  injection Ha2 as ->.
  destruct (find "td" (Some "right") away_row) as [ac|] eqn:Eac; [|discriminate Ha3].
  injection Ha3 as ->.
  destruct (find "td" (Some "right") home_row) as [hc|] eqn:Ehc; [|discriminate Ha4].
  injection Ha4 as ->.
  exists teams, r0, away_row, home_row, away, link, home, away_cell, home_cell, g.
  repeat split; assumption.
Qed.

Lemma Forall2_In_r {A B} (R : A -> B -> Prop) (l : list A) (l' : list B) (b : B) :
  Forall2 R l l' -> In b l' -> exists a, In a l /\ R a b.
Proof.
  induction 1 as [|a b' l l' Hab _ IH]; intros Hin; [destruct Hin|].
  destruct Hin as [->|Hin].
  - exists a. split; [left; reflexivity | exact Hab].
  - destruct (IH Hin) as (a' & Ha' & HR). exists a'. split; [right; exact Ha' | exact HR].
Qed.

(** Every record returned comes from a summary on one of the pages. *)
Lemma scrape_schedule_games (env : Env) (self : BaseScraper) (st st' : State)
    (games : list dict) :
  scrape_schedule env self st = (Ok games, st') ->
  forall d, In d games ->
  exists i status soup summary,
    In i (range 18) /\
    http env (base_url self) (week_url 2023 i) = Response status soup /\
    In summary (find_all "div" (Some "game_summary") soup) /\
    scrape_summary i 2023 summary = Ok d.
Proof.
  intros Hrun d Hd. unfold scrape_schedule in Hrun.
  pose proof (for_weeks_result env self 2023 (range 18) [] st) as Hres.
  rewrite Hrun in Hres. cbn [fst] in Hres. symmetry in Hres.
  inv_bind Hres. rename a into gss. cbn in Hres. injection Hres as <-.
  apply map_result_Ok in Ha. apply in_concat in Hd as (gs & Hgs & Hd).
  destruct (Forall2_In_r _ _ _ _ Ha Hgs) as (i & Hi & Hweek).
  unfold week_games in Hweek.
  destruct (http env (base_url self) (week_url 2023 i)) as [status soup|f] eqn:Hhttp;
    [|discriminate Hweek].
  apply map_result_Ok in Hweek.
  destruct (Forall2_In_r _ _ _ _ Hweek Hd) as (summary & Hs & Hsum).
  exists i, status, soup, summary. repeat split; assumption.
Qed.

(** ** Every scraped value prints *)

Lemma str_digits_bound_pow : str_digits_bound = 10 ^ Py.int_max_str_digits.
Proof. vm_compute. reflexivity. Qed.

Lemma digit_value_small (c : ascii) (d : Z) : Py.digit_value c = Some d -> 0 <= d <= 9.
Proof.
  unfold Py.digit_value. destruct (_ && _) eqn:E; [|discriminate].
  intros [= <-]. apply andb_prop in E as [E1 E2]. lia.
Qed.

Lemma pow10_step (acc d n : Z) :
  0 <= n -> 0 <= acc < 10 ^ n -> 0 <= d <= 9 -> 0 <= 10 * acc + d < 10 ^ (n + 1).
Proof.
  intros Hn Hacc Hd. rewrite Z.pow_add_r by lia. rewrite Z.pow_1_r. lia.
Qed.

(** The value read has at most as many digits as were read. *)
Lemma int_digits_bound (s : string) :
  (forall acc n v m,
     0 <= n -> 0 <= acc < 10 ^ n ->
     Py.int_digits s acc n = Some (v, m) -> 0 <= m /\ 0 <= v < 10 ^ m) /\
  (forall c acc n v m,
     0 <= n -> 0 <= acc < 10 ^ n ->
     Py.int_digits (String c s) acc n = Some (v, m) -> 0 <= m /\ 0 <= v < 10 ^ m).
Proof.
  induction s as [|a s [IH1 IH2]].
  - split.
    + intros acc n v m Hn Hacc [= <- <-]. split; [exact Hn | exact Hacc].
    + intros c acc n v m Hn Hacc H. cbn in H.
      destruct (Py.digit_value c) as [d|] eqn:Hd.
      * injection H as <- <-. apply digit_value_small in Hd.
        split; [lia | apply pow10_step; assumption].
      * destruct (Ascii.eqb c "_"); discriminate H.
  - split; [exact (IH2 a)|].
    intros c acc n v m Hn Hacc H. cbn [Py.int_digits] in H.
    destruct (Py.digit_value c) as [d|] eqn:Hd.
    + apply digit_value_small in Hd.
      apply (IH2 a (10 * acc + d) (n + 1) v m); [lia | apply pow10_step; assumption | exact H].
    + destruct (Ascii.eqb c "_"); [|discriminate H].
      destruct (Py.digit_value a) as [d|] eqn:Hd'; [|discriminate H].
      apply digit_value_small in Hd'.
      apply (IH1 (10 * acc + d) (n + 1) v m); [lia | apply pow10_step; assumption | exact H].
Qed.

Lemma int_unsigned_bound (s : string) (v : Z) :
  Py.int_unsigned s = Some v -> 0 <= v < str_digits_bound.
Proof.
  unfold Py.int_unsigned. destruct s as [|c s]; [discriminate|].
  destruct (Py.digit_value c) as [d|] eqn:Hd; [|discriminate].
  destruct (Py.int_digits s d 1) as [[v' n]|] eqn:Hv; [|discriminate].
  destruct (Py.int_max_str_digits <? n) eqn:Hn; [discriminate|]. intros [= <-].
  apply Z.ltb_ge in Hn. apply digit_value_small in Hd.
  destruct (proj1 (int_digits_bound s) d 1 v' n) as (Hm & Hv0 & Hv1);
    [lia | rewrite Z.pow_1_r; lia | exact Hv |].
  split; [exact Hv0|]. rewrite str_digits_bound_pow.
  apply Z.lt_le_trans with (10 ^ n); [exact Hv1|].
  apply Z.pow_le_mono_r; lia.
Qed.

(** What [int] returns, [str] prints. *)
Lemma int_of_str_printable (s : string) (v : Z) :
  Py.int_of_str s = Some v -> printable (PyInt v) = true.
Proof.
  unfold Py.int_of_str, printable. intros H. apply Z.ltb_lt.
  assert (Hcase : exists u w, Py.int_unsigned u = Some w /\ (v = w \/ v = - w)).
  { destruct (Py.int_rstrip (Py.int_lstrip s)) as [|c r]; [discriminate|].
    destruct c as [[] [] [] [] [] [] [] []]; cbv beta iota in H;
      match type of H with
      | Py.int_unsigned ?u = Some _ =>
          exists u, v; split; [exact H | left; reflexivity]
      | option_map _ (Py.int_unsigned ?u) = Some _ =>
          destruct (Py.int_unsigned u) as [w|] eqn:Hw; [|discriminate H];
          injection H as <-; exists u, w; split; [exact Hw | right; reflexivity]
      end. }
  destruct Hcase as (u & w & Hu & Hv). apply int_unsigned_bound in Hu.
  destruct Hv as [-> | ->]; lia.
Qed.

Lemma small_printable (n : Z) : Z.abs n <= 2023 -> printable (PyInt n) = true.
Proof.
  intros H. unfold printable. apply Z.ltb_lt.
  apply Z.le_lt_trans with 2023; [exact H|]. vm_compute. reflexivity.
Qed.

Lemma build_game_printable (home away : string) (w y : Z) (href : option string)
    (hs as_ lt : string) (g : Game) :
  build_game home away w y href hs as_ lt = Ok g ->
  printable (PyInt w) = true -> printable (PyInt y) = true ->
  printable_record (model_dump g) = true.
Proof.
  intros Hb Hw Hy.
  apply build_game_Ok in Hb as (u & _ & Hweek & Hseason & _ & _ & _ & Hsc).
  assert (Hscores : printable (opt_int (home_score g)) = true /\
                    printable (opt_int (away_score g)) = true).
  { destruct (_ && _).
    - destruct Hsc as (a & h & Hia & Hih & -> & -> & _).
      split; [exact (int_of_str_printable _ _ Hih) | exact (int_of_str_printable _ _ Hia)].
    - destruct Hsc as (-> & -> & _). split; reflexivity. }
  destruct Hscores as [Hh Ha].
  unfold printable_record, model_dump. cbn [forallb snd].
  rewrite Hweek, Hseason, Hw, Hy, Hh, Ha. reflexivity.
Qed.

Lemma scrape_schedule_printable (env : Env) (self : BaseScraper) (st : State)
    (games : list dict) :
  fst (scrape_schedule env self st) = Ok games ->
  forallb printable_record games = true.
Proof.
  intros Hrun. apply forallb_forall. intros d Hd.
  destruct (scrape_schedule env self st) as [r st'] eqn:Hs.
  cbn [fst] in Hrun. subst r.
  destruct (scrape_schedule_games _ _ _ _ _ Hs d Hd)
    as (i & status & soup & summary & Hi & _ & _ & Hsum).
  apply scrape_summary_Ok in Hsum
    as (teams & r0 & ar & hr & aw & lk & hm & ac & hc & g & _ & _ & _ & _ & _ & _ & Hb & ->).
  unfold range in Hi. apply in_map_iff in Hi as (k & <- & Hk). apply in_seq in Hk.
  apply (build_game_printable _ _ _ _ _ _ _ _ _ Hb); apply small_printable; lia.
Qed.

(** ** C1: a record is unplayed or scored, never half scored *)

(** C1, as stated, fails: the score cells "-3" and "7" give a record
    whose away score is the negative integer -3, so the record is
    neither unplayed nor scored with non-negative integers. *)
Lemma C1_negative_score_counterexample :
  fst (scrape_schedule negative_env PfrScraper st0) = Ok [model_dump negative_game] /\
  In (model_dump negative_game) [model_dump negative_game] /\
  ~ (unplayed (model_dump negative_game) \/ scored_nonneg (model_dump negative_game)).
Proof.
  split; [vm_compute; reflexivity|]. split; [left; reflexivity|].
  intros [(Hh & _ & _) | (h & a & _ & Ha & _ & Hneg)].
  - cbn in Hh. discriminate Hh.
  - cbn in Ha. injection Ha as <-. lia.
Qed.

(** C1 (amended): every record returned by the schedule extractor is
    either unplayed (both scores [None], [completed] false) or scored
    (both scores present as integers, each non-negative unless its
    score text starts with a minus sign); no record has exactly one
    score; and with two empty score strings the record has
    [home_score = None], [away_score = None], [completed = False]. *)
Theorem C1_unplayed_or_scored :
  (forall env self st games,
     fst (scrape_schedule env self st) = Ok games ->
     forall d, In d games ->
       (unplayed d \/ scored d) /\ ~ one_score_only d) /\
  (forall home away w y u lt,
     build_game home away w y (Some u) "" "" lt
     = Ok (mkGame w y u home away None None false)) /\
  (forall home away w y href lt g,
     build_game home away w y href "" "" lt = Ok g ->
     home_score g = None /\ away_score g = None /\ completed g = false) /\
  (forall home away w y href hs as_ lt g,
     build_game home away w y href hs as_ lt = Ok g ->
     (forall h, home_score g = Some h -> has_minus_sign hs = false -> 0 <= h) /\
     (forall a, away_score g = Some a -> has_minus_sign as_ = false -> 0 <= a)).
Proof.
  split; [|split; [|split]].
  - intros env self st games Hrun d Hd.
    destruct (scrape_schedule env self st) as [r st'] eqn:Hs. cbn [fst] in Hrun. subst r.
    destruct (scrape_schedule_games _ _ _ _ _ Hs d Hd)
      as (i & status & soup & summary & _ & _ & _ & Hsum).
    apply scrape_summary_Ok in Hsum
      as (teams & r0 & ar & hr & aw & lk & hm & ac & hc & g & _ & _ & _ & _ & _ & _ & Hb & ->).
    apply build_game_Ok in Hb as (u & _ & _ & _ & _ & _ & _ & Hsc).
    destruct (_ && _).
    + destruct Hsc as (a & h & _ & _ & Ha & Hh & _). split.
      * right. exists h, a. cbn. rewrite Ha, Hh. split; reflexivity.
      * intros (n & [[H1 H2] | [H1 H2]]); cbn in H1, H2; rewrite ?Ha, ?Hh in *;
          discriminate.
    + destruct Hsc as (Ha & Hh & Hc). split.
      * left. unfold unplayed. cbn. rewrite Ha, Hh, Hc. repeat split.
      * intros (n & [[H1 H2] | [H1 H2]]); cbn in H1, H2; rewrite ?Ha, ?Hh in *;
          discriminate.
  - reflexivity.
  - intros home away w y href lt g Hb.
    apply build_game_Ok in Hb as (u & _ & _ & _ & _ & _ & _ & Hsc).
    cbn in Hsc. destruct Hsc as (Ha & Hh & Hc). repeat split; assumption.
  - intros home away w y href hs as_ lt g Hb.
    apply build_game_Ok in Hb as (u & _ & _ & _ & _ & _ & _ & Hsc).
    destruct (_ && _).
    + destruct Hsc as (a & h & Hia & Hih & Ha & Hh & _). split.
      * intros h' Hh' Hsign. rewrite Hh in Hh'. injection Hh' as <-.
        exact (int_of_str_nonneg hs h Hih Hsign).
      * intros a' Ha' Hsign. rewrite Ha in Ha'. injection Ha' as <-.
        exact (int_of_str_nonneg as_ a Hia Hsign).
    + destruct Hsc as (Ha & Hh & _). split; intros n Hn; congruence.
Qed.

Lemma C1_witness :
  fst (scrape_schedule sample_env PfrScraper st0)
    = Ok [model_dump played_game; model_dump upcoming_game] /\
  ((unplayed (model_dump upcoming_game) \/ scored (model_dump upcoming_game)) /\
   ~ one_score_only (model_dump upcoming_game)) /\
  (home_score upcoming_game = None /\ away_score upcoming_game = None /\
   completed upcoming_game = false) /\
  build_game "Kansas City Chiefs" "Detroit Lions" 1 2023
             (Some "/boxscores/202309070kan.htm") "20" "21" " Final " = Ok played_game /\
  has_minus_sign "20" = false /\ 0 <= 20.
Proof.
  assert (Hrun : fst (scrape_schedule sample_env PfrScraper st0)
                 = Ok [model_dump played_game; model_dump upcoming_game])
    by (vm_compute; reflexivity).
  assert (Hb : build_game "Kansas City Chiefs" "Detroit Lions" 1 2023
                 (Some "/boxscores/202309070kan.htm") "20" "21" " Final " = Ok played_game)
    by (vm_compute; reflexivity).
  split; [exact Hrun|]. split; [|split; [|split; [exact Hb|split; [reflexivity|]]]].
  - apply (proj1 C1_unplayed_or_scored sample_env PfrScraper st0 _ Hrun).
    right; left; reflexivity.
  - apply (proj1 (proj2 (proj2 C1_unplayed_or_scored))
             "Atlanta Falcons" "Carolina Panthers" 1 2023
             (Some "/boxscores/202309100atl.htm") "Preview").
    reflexivity.
  - apply (proj1 (proj2 (proj2 (proj2 C1_unplayed_or_scored)) _ _ _ _ _ _ _ _ _ Hb) 20);
      reflexivity.
Defined.

(** ** C2: scores are attached exactly when both strings are non-empty *)



(** ** Errors abort the run *)

(** If the records of some week cannot be produced, the run ends in an
    exception before [save_to_csv] is reached, and the disk is as it
    was. *)
Lemma week_raises_aborts (env : Env) (st : State) (i : Z) (e0 : exn) :
  In i (range 18) ->
  week_games env PfrScraper 2023 i = Raise e0 ->
  exists e st',
    scrape_schedule env PfrScraper st = (Raise e, st') /\
    main env st = (Raise e, st') /\
    files st' = files st.
Proof.
  intros Hi Hweek.
  destruct (map_result_Raise _ _ _ _ Hi Hweek) as [e He].
  assert (Hres : fst (for_weeks env PfrScraper 2023 (range 18) [] st) = Raise e)
    by (rewrite for_weeks_result, He; reflexivity).
  destruct (for_weeks_state env PfrScraper 2023 (range 18) [] st) as (Hf & _).
  unfold main. rewrite M_bind_run. unfold scrape_schedule.
  destruct (for_weeks env PfrScraper 2023 (range 18) [] st) as [r st'].
  cbn [fst snd] in *. subst r.
  exists e, st'. repeat split. exact Hf.
Qed.

Lemma summary_raises_aborts (env : Env) (st : State) (i status : Z)
    (soup summary : PageElement) (e0 : exn) :
  In i (range 18) ->
  http env (base_url PfrScraper) (week_url 2023 i) = Response status soup ->
  In summary (find_all "div" (Some "game_summary") soup) ->
  scrape_summary i 2023 summary = Raise e0 ->
  exists e st',
    scrape_schedule env PfrScraper st = (Raise e, st') /\
    main env st = (Raise e, st') /\
    files st' = files st.
Proof.
  intros Hi Hhttp Hin Hsum.
  destruct (map_result_Raise _ _ _ _ Hin Hsum) as [e He].
  apply (week_raises_aborts env st i e Hi).
  unfold week_games. rewrite Hhttp. exact He.
Qed.

Lemma malformed_raises (i year : Z) (summary : PageElement) :
  wrong_row_count summary \/ wrong_away_links summary
  \/ both_scores_one_unparseable summary ->
  exists e, scrape_summary i year summary = Raise e.
Proof.
  intros Hbad.
  destruct (scrape_summary i year summary) as [d|e] eqn:Hs; [exfalso | eauto].
  apply scrape_summary_Ok in Hs
    as (teams & r0 & ar & hr & aw & lk & hm & ac & hc & g
        & Ht & Hr & Ha & _ & Hac & Hhc & Hb & _).
  destruct Hbad as [(t & Ht' & Hlen) | [(t & x0 & x1 & x2 & Ht' & Hr' & Hlen) | Hsc]].
  - rewrite Ht in Ht'. injection Ht' as <-. rewrite Hr in Hlen. apply Hlen. reflexivity.
  - rewrite Ht in Ht'. injection Ht' as <-. rewrite Hr in Hr'.
    injection Hr' as <- <- <-. rewrite Ha in Hlen. apply Hlen. reflexivity.
  - destruct Hsc as (hs & as_ & (t & x0 & x1 & x2 & c1 & c2 & Ht' & Hr' & Hc1 & Hc2 & -> & ->)
                     & Hhs & Has & Hnone).
    rewrite Ht in Ht'. injection Ht' as <-. rewrite Hr in Hr'.
    injection Hr' as <- <- <-. rewrite Hac in Hc1. injection Hc1 as <-.
    rewrite Hhc in Hc2. injection Hc2 as <-.
    apply build_game_Ok in Hb as (u & _ & _ & _ & _ & _ & _ & Hscore).
    destruct (Py.strip (text hc)) as [|? ?]; [congruence|].
    destruct (Py.strip (text ac)) as [|? ?]; [congruence|].
    cbn [Py.truthy andb] in Hscore.
    destruct Hscore as (va & vh & Hia & Hih & _). destruct Hnone; congruence.
Qed.

(** ** C3: malformed markup is fatal *)

(** C3, as stated, fails: a summary whose away score text is "OT"
    (non-empty, not an integer) next to an empty home score text does
    not raise; the run completes, returns the record as unplayed and
    writes the output file. *)
Lemma C3_lone_score_text_counterexample :
  http lone_text_env (base_url PfrScraper) (week_url 2023 0)
    = Response 200 (sample_page [lone_text_summary]) /\
  In lone_text_summary
     (find_all "div" (Some "game_summary") (sample_page [lone_text_summary])) /\
  some_score_unparseable lone_text_summary /\
  fst (scrape_schedule lone_text_env PfrScraper st0) = Ok [model_dump lone_text_game] /\
  fst (main lone_text_env st0) = Ok tt /\
  files (snd (main lone_text_env st0)) !! output_file
    = Some ("week,season,url,home_team,away_team,home_score,away_score,completed"
            +:+ String "010"
            ("1,2023,/boxscores/202309070kan.htm,Kansas City Chiefs,Detroit Lions,None,None,False"
            +:+ String "010" "")).
Proof.
  split; [reflexivity|]. split; [left; reflexivity|]. split; [|split; [|split]].
  - exists "", "OT". split.
    + unfold score_texts. do 6 eexists.
      split; [reflexivity|]. split; [reflexivity|].
      split; [reflexivity|]. split; [reflexivity|]. split; reflexivity.
    + right. split; [discriminate | reflexivity].
  - vm_compute; reflexivity.
  - vm_compute; reflexivity.
  - vm_compute; reflexivity.
Qed.

(** C3 (amended): if a game summary on one of the eighteen pages has a
    teams table that does not contain exactly three rows, or an away
    row that does not contain exactly two links, or two non-empty score
    texts of which one is not an integer literal, then the extractor
    raises; the exception ends the whole run: no record list is
    returned and no file is written. *)
Theorem C3_malformed_summary_aborts_run :
  forall env st i status soup summary,
    In i (range 18) ->
    http env (base_url PfrScraper) (week_url 2023 i) = Response status soup ->
    In summary (find_all "div" (Some "game_summary") soup) ->
    wrong_row_count summary \/ wrong_away_links summary
    \/ both_scores_one_unparseable summary ->
    exists e st',
      scrape_schedule env PfrScraper st = (Raise e, st') /\
      main env st = (Raise e, st') /\
      files st' = files st.
Proof.
  intros env st i status soup summary Hi Hhttp Hin Hbad.
  destruct (malformed_raises i 2023 summary Hbad) as [e0 He0].
  exact (summary_raises_aborts env st i status soup summary e0 Hi Hhttp Hin He0).
Qed.

Lemma C3_witness :
  In 0 (range 18) /\
  http two_row_env (base_url PfrScraper) (week_url 2023 0)
    = Response 200 (sample_page [played_summary; two_row_summary]) /\
  In two_row_summary
     (find_all "div" (Some "game_summary") (sample_page [played_summary; two_row_summary])) /\
  wrong_row_count two_row_summary /\
  exists e st',
    scrape_schedule two_row_env PfrScraper st0 = (Raise e, st') /\
    main two_row_env st0 = (Raise e, st') /\
    files st' = files st0.
Proof.
  assert (Hi : In 0 (range 18)) by (left; reflexivity).
  assert (Hin : In two_row_summary
                   (find_all "div" (Some "game_summary")
                             (sample_page [played_summary; two_row_summary])))
    by (right; left; reflexivity).
  assert (Hbad : wrong_row_count two_row_summary).
  { eexists. split; [reflexivity|]. vm_compute. discriminate. }
  split; [exact Hi|]. split; [reflexivity|]. split; [exact Hin|]. split; [exact Hbad|].
  apply (C3_malformed_summary_aborts_run two_row_env st0 0 200
           (sample_page [played_summary; two_row_summary]) two_row_summary Hi).
  - reflexivity.
  - exact Hin.
  - left. exact Hbad.
Defined.

(** ** C4: which links the team names and the url come from *)




(** ** C5: eighteen weeks of season 2023 *)

Lemma week_url_path (i : Z) : week_url 2023 i = week_path 2023 (i + 1).
Proof. reflexivity. Qed.

Lemma week_urls_paths : map (week_url 2023) (range 18) = map (week_path 2023) weeks_1_18.
Proof. vm_compute. reflexivity. Qed.

Lemma range_bounds (i : Z) (n : nat) : In i (range n) -> 0 <= i < Z.of_nat n.
Proof.
  unfold range. intros H. apply in_map_iff in H as (k & <- & Hk).
  apply in_seq in Hk. lia.
Qed.

(** C5: the extractor requests the pages of weeks 1 to 18 of season
    2023, in that order, each under [years/2023/week_n.htm] (stopping
    early only when it raises); every record it returns comes from a
    game summary on the page of some week [n] between 1 and 18, and has
    [week = n] and [season = 2023]. *)
Theorem C5_weeks_1_to_18_of_2023 :
  forall env st,
    let out := scrape_schedule env PfrScraper st in
    (exists k : nat,
       (k <= 18)%nat /\
       requests (snd out)
       = (requests st ++ firstn k (map (week_path 2023) weeks_1_18))%list) /\
    (forall games,
       fst out = Ok games ->
       requests (snd out) = (requests st ++ map (week_path 2023) weeks_1_18)%list /\
       forall d, In d games ->
         exists n status soup summary,
           1 <= n <= 18 /\
           http env pfr_origin (week_path 2023 n) = Response status soup /\
           In summary (find_all "div" (Some "game_summary") soup) /\
           scrape_summary (n - 1) 2023 summary = Ok d /\
           getitem d "week" = Some (PyInt n) /\
           getitem d "season" = Some (PyInt 2023)).
Proof.
  intros env st out.
  destruct (for_weeks_state env PfrScraper 2023 (range 18) [] st)
    as (_ & _ & k & Hk & Hreq & Hall).
  fold (scrape_schedule env PfrScraper st) in Hreq, Hall. fold out in Hreq, Hall.
  split.
  - exists k. split; [exact Hk|]. rewrite Hreq, <- week_urls_paths.
    rewrite firstn_map. reflexivity.
  - intros games Hgames. split.
    + rewrite Hreq, (Hall games Hgames), <- week_urls_paths.
      rewrite firstn_all. reflexivity.
    + intros d Hd. subst out.
      destruct (scrape_schedule env PfrScraper st) as [r st'] eqn:Hrun.
      cbn [fst] in Hgames. subst r.
      destruct (scrape_schedule_games _ _ _ _ _ Hrun d Hd)
        as (i & status & soup & summary & Hi & Hhttp & Hin & Hsum).
      apply range_bounds in Hi.
      exists (i + 1), status, soup, summary.
      split; [lia|]. split; [rewrite <- week_url_path; exact Hhttp|].
      split; [exact Hin|]. rewrite Z.add_simpl_r. split; [exact Hsum|].
      apply scrape_summary_Ok in Hsum
        as (teams & r0 & ar & hr & aw & lk & hm & ac & hc & g
            & _ & _ & _ & _ & _ & _ & Hb & ->).
      apply build_game_Ok in Hb as (u & _ & Hw & Hy & _).
      cbn. rewrite Hw, Hy. split; reflexivity.
Qed.

Lemma C5_witness :
  fst (scrape_schedule sample_env PfrScraper st0)
    = Ok [model_dump played_game; model_dump upcoming_game] /\
  requests (snd (scrape_schedule sample_env PfrScraper st0))
    = ["years/2023/week_1.htm"; "years/2023/week_2.htm"; "years/2023/week_3.htm";
       "years/2023/week_4.htm"; "years/2023/week_5.htm"; "years/2023/week_6.htm";
       "years/2023/week_7.htm"; "years/2023/week_8.htm"; "years/2023/week_9.htm";
       "years/2023/week_10.htm"; "years/2023/week_11.htm"; "years/2023/week_12.htm";
       "years/2023/week_13.htm"; "years/2023/week_14.htm"; "years/2023/week_15.htm";
       "years/2023/week_16.htm"; "years/2023/week_17.htm"; "years/2023/week_18.htm"] /\
  exists n status soup summary,
    1 <= n <= 18 /\
    http sample_env pfr_origin (week_path 2023 n) = Response status soup /\
    In summary (find_all "div" (Some "game_summary") soup) /\
    scrape_summary (n - 1) 2023 summary = Ok (model_dump played_game) /\
    getitem (model_dump played_game) "week" = Some (PyInt n) /\
    getitem (model_dump played_game) "season" = Some (PyInt 2023).
Proof.
  assert (Hrun : fst (scrape_schedule sample_env PfrScraper st0)
                 = Ok [model_dump played_game; model_dump upcoming_game])
    by (vm_compute; reflexivity).
  destruct (proj2 (C5_weeks_1_to_18_of_2023 sample_env st0) _ Hrun) as [Hreq Hgames].
  split; [exact Hrun|]. split.
  - rewrite Hreq. vm_compute. reflexivity.
  - apply Hgames. left. reflexivity.
Defined.

(** ** C6: the result is the weeks' records, concatenated *)

(** C6: the extractor returns the concatenation, for [i] from 0 to 17
    in ascending order (weeks 1 to 18), of the records of week [i + 1]
    taken in the order of the game summaries on that week's page; when
    it returns a list, all eighteen pages have been requested. *)
Theorem C6_concatenation_in_week_order :
  forall env st,
    let out := scrape_schedule env PfrScraper st in
    fst out
    = (gss ← map_result (week_games env PfrScraper 2023) (range 18); mret (concat gss)) /\
    range 18 = [0; 1; 2; 3; 4; 5; 6; 7; 8; 9; 10; 11; 12; 13; 14; 15; 16; 17] /\
    (forall games,
       fst out = Ok games ->
       requests (snd out) = (requests st ++ map (week_url 2023) (range 18))%list).
Proof.
  intros env st out. split; [|split].
  - subst out. unfold scrape_schedule. rewrite for_weeks_result. reflexivity.
  - reflexivity.
  - intros games Hgames.
    destruct (for_weeks_state env PfrScraper 2023 (range 18) [] st)
      as (_ & _ & k & Hk & Hreq & Hall).
    fold (scrape_schedule env PfrScraper st) in Hreq, Hall. fold out in Hreq, Hall.
    rewrite Hreq, (Hall games Hgames), firstn_all. reflexivity.
Qed.

Lemma C6_witness :
  fst (scrape_schedule sample_env PfrScraper st0)
    = Ok [model_dump played_game; model_dump upcoming_game] /\
  requests (snd (scrape_schedule sample_env PfrScraper st0))
    = (requests st0 ++ map (week_url 2023) (range 18))%list.
Proof.
  assert (Hrun : fst (scrape_schedule sample_env PfrScraper st0)
                 = Ok [model_dump played_game; model_dump upcoming_game])
    by (vm_compute; reflexivity).
  split; [exact Hrun|].
  exact (proj2 (proj2 (C6_concatenation_in_week_order sample_env st0)) _ Hrun).
Defined.

(** ** What [save_to_csv] leaves on disk *)

Lemma append_assoc' (a b c : string) : (a +:+ b) +:+ c = a +:+ (b +:+ c).
Proof.
  induction a as [|x a IH]; [reflexivity|].
  rewrite !append_String, IH. reflexivity.
Qed.

Lemma append_nil_r' (a : string) : a +:+ "" = a.
Proof.
  induction a as [|x a IH]; [reflexivity|].
  rewrite append_String, IH. reflexivity.
Qed.

Lemma map_str_printable (line : list pyval) :
  forallb printable line = true -> map_result str line = Ok (map show line).
Proof.
  induction line as [|x line IH]; [reflexivity|].
  cbn [forallb map_result map]. intros H. apply andb_prop in H as [Hx Hl].
  change (str x) with (if printable x then Ok (show x) else Raise ValueError).
  rewrite Hx. cbn [mbind result_bind]. rewrite (IH Hl). reflexivity.
Qed.


Lemma csv_line_printable (line : list pyval) :
  forallb printable line = true ->
  csv_line line = Ok (String.concat "," (map show line) +:+ String newline "").
Proof. intros H. unfold csv_line. rewrite (map_str_printable line H). reflexivity. Qed.


(** The loop appends [fst (written rows)] to the open file and ends as
    [snd (written rows)] says. *)
Lemma write_rows_written (filename : string) (rows : list (list pyval))
    (st : State) (old : string) :
  files st !! filename = Some old ->
  write_rows filename rows st
  = (snd (written rows),
     mkState (requests st) (navigations st)
             (<[filename := old +:+ fst (written rows)]> (files st))).
Proof.
  revert st old. induction rows as [|row rows IH]; intros st old Hold.
  - cbn. rewrite append_nil_r', insert_id by exact Hold. destruct st; reflexivity.
  - cbn [write_rows written]. rewrite M_bind_run. unfold lift.
    destruct (csv_line row) as [text|e].
    + rewrite M_bind_run. unfold write at 1. rewrite Hold. cbn [default].
      rewrite (IH _ (old +:+ text)) by apply lookup_insert_eq.
      cbn [requests navigations files fst snd]. rewrite insert_insert_eq.
      rewrite append_assoc'. reflexivity.
    + cbn [fst snd]. rewrite append_nil_r', insert_id by exact Hold.
      destruct st; reflexivity.
Qed.

Lemma save_to_csv_written (env : Env) (filename : string) (first : dict) (rest : list dict)
    (st : State) :
  writable env filename = true ->
  save_to_csv env filename (first :: rest) st
  = (snd (written (keys first :: map values (first :: rest))),
     mkState (requests st) (navigations st)
             (<[filename := fst (written (keys first :: map values (first :: rest)))]>
                (files st))).
Proof.
  intros Hw. unfold save_to_csv. rewrite M_bind_run. unfold open_w. rewrite Hw.
  rewrite (write_rows_written filename _ _ "") by apply lookup_insert_eq.
  cbn [requests navigations files]. rewrite insert_insert_eq, append_empty. reflexivity.
Qed.

Lemma written_printable (rows : list (list pyval)) :
  forallb (forallb printable) rows = true ->
  written rows = (unlines (map (fun r => String.concat "," (map show r)) rows), Ok tt).
Proof.
  induction rows as [|row rows IH]; [reflexivity|].
  cbn [forallb written]. intros H. apply andb_prop in H as [Hr Hrows].
  rewrite (csv_line_printable row Hr), (IH Hrows). cbn [fst snd map unlines fold_right].
  rewrite append_assoc', append_String, append_empty. reflexivity.
Qed.


Lemma keys_printable (d : dict) : forallb printable (keys d) = true.
Proof. unfold keys. induction d as [|kv d IH]; [reflexivity|]. exact IH. Qed.

Lemma values_printable (d : dict) : forallb printable (values d) = printable_record d.
Proof.
  unfold values, printable_record. induction d as [|kv d IH]; [reflexivity|].
  cbn [map forallb]. rewrite IH. reflexivity.
Qed.

Lemma rows_printable (data : list dict) :
  forallb (forallb printable) (map values data) = forallb printable_record data.
Proof.
  induction data as [|d data IH]; [reflexivity|].
  cbn [map forallb]. rewrite values_printable, IH. reflexivity.
Qed.

Lemma save_to_csv_run (env : Env) (filename : string) (first : dict) (rest : list dict)
    (st : State) :
  writable env filename = true ->
  forallb printable_record (first :: rest) = true ->
  save_to_csv env filename (first :: rest) st
  = (Ok tt, mkState (requests st) (navigations st)
                    (<[filename := unlines (csv_header first :: map csv_row (first :: rest))]>
                       (files st))).
Proof.
  intros Hw Hp. rewrite (save_to_csv_written env filename first rest st Hw).
  rewrite written_printable.
  - cbn [fst snd]. do 3 f_equal. unfold csv_header, csv_row, keys.
    cbn [map]. rewrite !map_map. cbn [show fst]. reflexivity.
  - cbn [forallb]. rewrite keys_printable, rows_printable. exact Hp.
Qed.

Lemma lines_unlines_cons (l rest : string) :
  no_newline l = true -> lines (l +:+ String newline rest) = l :: lines rest.
Proof.
  induction l as [|c l IH]; intros Hl.
  - reflexivity.
  - cbn [no_newline] in Hl. apply andb_prop in Hl as [Hc Hl].
    rewrite append_String. cbn [lines].
    destruct (Ascii.eqb c newline); [discriminate Hc|].
    rewrite (IH Hl). reflexivity.
Qed.

Lemma lines_unlines (ls : list string) :
  Forall (fun l => no_newline l = true) ls -> lines (unlines ls) = ls.
Proof.
  induction 1 as [|l ls Hl _ IH]; [reflexivity|].
  cbn [unlines fold_right]. rewrite (lines_unlines_cons _ _ Hl). f_equal. exact IH.
Qed.

Lemma no_newline_app (a b : string) :
  no_newline a = true -> no_newline b = true -> no_newline (a +:+ b) = true.
Proof.
  induction a as [|c a IH]; intros Ha Hb; [exact Hb|].
  cbn [no_newline] in Ha. apply andb_prop in Ha as [Hc Ha].
  rewrite append_String. cbn [no_newline]. rewrite Hc, (IH Ha Hb). reflexivity.
Qed.

Lemma no_newline_join (parts : list string) :
  Forall (fun p => no_newline p = true) parts ->
  no_newline (String.concat "," parts) = true.
Proof.
  induction 1 as [|p parts Hp Hparts IH]; [reflexivity|].
  cbn [String.concat]. destruct parts as [|q parts]; [exact Hp|].
  apply no_newline_app; [exact Hp|]. apply no_newline_app; [reflexivity | exact IH].
Qed.

Lemma one_line_record_header (d : dict) :
  one_line_record d = true -> no_newline (csv_header d) = true.
Proof.
  intros H. apply no_newline_join. apply Forall_map.
  unfold one_line_record in H. rewrite forallb_forall in H.
  apply List.Forall_forall. intros kv Hkv. specialize (H kv Hkv).
  apply andb_prop in H as [Hk _]. exact Hk.
Qed.

Lemma one_line_record_row (d : dict) :
  one_line_record d = true -> no_newline (csv_row d) = true.
Proof.
  intros H. apply no_newline_join. unfold values. rewrite map_map. apply Forall_map.
  unfold one_line_record in H. rewrite forallb_forall in H.
  apply List.Forall_forall. intros kv Hkv. specialize (H kv Hkv).
  apply andb_prop in H as [_ Hv]. exact Hv.
Qed.


(** ** C7: one header line and one line per record *)




(** ** C8: nothing to serialize *)

(** C8: called with an empty list, the serializer raises [ValueError]
    and leaves the state, files included, exactly as it was: the check
    comes before the file is opened.  In particular a run that scrapes
    no record ends in that error without writing a file. *)
Theorem C8_empty_data_rejected :
  (forall env filename st, save_to_csv env filename [] st = (Raise ValueError, st)) /\
  (forall env st,
     fst (scrape_schedule env PfrScraper st) = Ok [] ->
     fst (main env st) = Raise ValueError /\
     files (snd (main env st)) = files st).
Proof.
  split; [reflexivity|].
  intros env st Hrun. unfold main. rewrite M_bind_run.
  destruct (for_weeks_state env PfrScraper 2023 (range 18) [] st) as (Hf & _).
  fold (scrape_schedule env PfrScraper st) in Hf.
  destruct (scrape_schedule env PfrScraper st) as [r st']. cbn [fst snd] in *. subst r.
  split; [reflexivity | exact Hf].
Qed.

Lemma C8_witness :
  fst (scrape_schedule empty_env PfrScraper st0) = Ok [] /\
  fst (main empty_env st0) = Raise ValueError /\
  files (snd (main empty_env st0)) = files st0.
Proof.
  assert (Hrun : fst (scrape_schedule empty_env PfrScraper st0) = Ok [])
    by (vm_compute; reflexivity).
  split; [exact Hrun|].
  exact (proj2 C8_empty_data_rejected empty_env st0 Hrun).
Defined.

(** ** C9: what a failed fetch does *)

(** C9, as stated, fails: a 404 answer is not an error for the static
    fetcher.  Its body is parsed and returned like any other page; the
    run below goes on with weeks 2 to 18 and writes the file with week 1
    silently missing. *)
Lemma C9_not_found_counterexample :
  http not_found_env (base_url PfrScraper) "years/2023/week_1.htm"
    = Response 404 not_found_page /\
  _get_static_soup not_found_env PfrScraper "years/2023/week_1.htm" st0
    = (Ok not_found_page, mkState ["years/2023/week_1.htm"] [] ∅) /\
  fst (main not_found_env st0) = Ok tt /\
  (exists content,
     files (snd (main not_found_env st0)) !! output_file = Some content /\
     length (lines content) = 18%nat).
Proof.
  split; [reflexivity|]. split; [reflexivity|]. split; [vm_compute; reflexivity|].
  eexists. split; [vm_compute; reflexivity|]. vm_compute. reflexivity.
Qed.

(** C9 (amended): in static mode, every exception of the HTTP client
    (timeout, connection refused, any other transport failure) comes
    out of the page fetcher unchanged, and when it happens for one of
    the eighteen week pages the whole run ends in an exception with no
    file written; a response, whatever its status code, is not an
    error: its body is parsed and returned. *)
Theorem C9_transport_failures_propagate :
  (forall env self url st f,
     http env (base_url self) url = HttpRaises f ->
     let st' := mkState (requests st ++ [url]) (navigations st) (files st) in
     _get_static_soup env self url st = (Raise (TransportError f), st') /\
     get_soup env self url false st = (Raise (TransportError f), st')) /\
  (forall env self url st status content,
     http env (base_url self) url = Response status content ->
     let st' := mkState (requests st ++ [url]) (navigations st) (files st) in
     _get_static_soup env self url st = (Ok content, st') /\
     get_soup env self url false st = (Ok content, st')) /\
  (forall env st i f,
     In i (range 18) ->
     http env (base_url PfrScraper) (week_url 2023 i) = HttpRaises f ->
     exists e st',
       scrape_schedule env PfrScraper st = (Raise e, st') /\
       main env st = (Raise e, st') /\
       files st' = files st).
Proof.
  split; [|split].
  - intros env self url st f Hhttp st'. subst st'.
    unfold get_soup, _get_static_soup. rewrite M_bind_run. unfold client_get.
    rewrite Hhttp. split; reflexivity.
  - intros env self url st status content Hhttp st'. subst st'.
    unfold get_soup, _get_static_soup. rewrite M_bind_run. unfold client_get.
    rewrite Hhttp. split; reflexivity.
  - intros env st i f Hi Hhttp.
    apply (week_raises_aborts env st i (TransportError f) Hi).
    unfold week_games. rewrite Hhttp. reflexivity.
Qed.

Lemma C9_witness :
  http timeout_env (base_url PfrScraper) (week_url 2023 2) = HttpRaises Timeout /\
  _get_static_soup timeout_env PfrScraper (week_url 2023 2) st0
    = (Raise (TransportError Timeout), mkState ["years/2023/week_3.htm"] [] ∅) /\
  http sample_env (base_url PfrScraper) (week_url 2023 0)
    = Response 200 (sample_page [played_summary; upcoming_summary]) /\
  _get_static_soup sample_env PfrScraper (week_url 2023 0) st0
    = (Ok (sample_page [played_summary; upcoming_summary]),
       mkState ["years/2023/week_1.htm"] [] ∅) /\
  In 2 (range 18) /\
  exists e st',
    scrape_schedule timeout_env PfrScraper st0 = (Raise e, st') /\
    main timeout_env st0 = (Raise e, st') /\
    files st' = files st0.
Proof.
  assert (Ht : http timeout_env (base_url PfrScraper) (week_url 2023 2) = HttpRaises Timeout)
    by reflexivity.
  assert (Hs : http sample_env (base_url PfrScraper) (week_url 2023 0)
               = Response 200 (sample_page [played_summary; upcoming_summary]))
    by reflexivity.
  assert (Hi : In 2 (range 18)) by (right; right; left; reflexivity).
  split; [exact Ht|]. split.
  { exact (proj1 (proj1 C9_transport_failures_propagate
                    timeout_env PfrScraper (week_url 2023 2) st0 Timeout Ht)). }
  split; [exact Hs|]. split.
  { exact (proj1 (proj1 (proj2 C9_transport_failures_propagate)
                    sample_env PfrScraper (week_url 2023 0) st0 200 _ Hs)). }
  split; [exact Hi|].
  exact (proj2 (proj2 C9_transport_failures_propagate) timeout_env st0 2 Timeout Hi Ht).
Defined.

(** ** C10: the eight columns *)

Lemma model_dump_keys (g : Game) : map fst (model_dump g) = game_keys.
Proof. reflexivity. Qed.

(** C10: every dict returned by the schedule extractor has exactly the
    keys week, season, url, home_team, away_team, home_score,
    away_score, completed, in this order; so the returned list is
    uniform, and when it is non-empty and the output file can be
    opened, the file written by the run starts with the line made of
    these eight names. *)
Theorem C10_eight_keys_in_order :
  forall env st games,
    fst (scrape_schedule env PfrScraper st) = Ok games ->
    (forall d, In d games -> map fst d = game_keys) /\
    (forall d : dict, In d games -> map fst d = map fst (hd ([] : dict) games)) /\
    (games <> [] ->
     writable env output_file = true ->
     fst (main env st) = Ok tt /\
     exists body,
       files (snd (main env st)) !! output_file
         = Some (header_line +:+ String newline body) /\
       hd_error (lines (header_line +:+ String newline body)) = Some header_line).
Proof.
  intros env st games Hrun.
  assert (Hkeys : forall d, In d games -> map fst d = game_keys).
  { intros d Hd.
    destruct (scrape_schedule env PfrScraper st) as [r st'] eqn:Hs.
    cbn [fst] in Hrun. subst r.
    destruct (scrape_schedule_games _ _ _ _ _ Hs d Hd)
      as (i & status & soup & summary & _ & _ & _ & Hsum).
    apply scrape_summary_Ok in Hsum
      as (teams & r0 & ar & hr & aw & lk & hm & ac & hc & g & _ & _ & _ & _ & _ & _ & _ & ->).
    apply model_dump_keys. }
  split; [exact Hkeys|]. split.
  - intros d Hd. destruct games as [|first rest]; [destruct Hd|]. cbn [hd].
    rewrite (Hkeys d Hd), (Hkeys first (or_introl eq_refl)). reflexivity.
  - intros Hne Hw. destruct games as [|first rest]; [congruence|].
    assert (Hhead : csv_header first = header_line).
    { assert (Hk := Hkeys first (or_introl eq_refl)).
      unfold csv_header. rewrite Hk. reflexivity. }
    pose proof (scrape_schedule_printable env PfrScraper st _ Hrun) as Hp.
    unfold main. rewrite M_bind_run. fold output_file.
    destruct (scrape_schedule env PfrScraper st) as [r st'].
    cbn [fst] in Hrun. subst r.
    rewrite (save_to_csv_run env output_file first rest st' Hw Hp). cbn [fst snd files].
    split; [reflexivity|].
    exists (unlines (map csv_row (first :: rest))). split.
    + rewrite lookup_insert_eq. cbn [unlines fold_right]. rewrite Hhead. reflexivity.
    + rewrite lines_unlines_cons by reflexivity. reflexivity.
Qed.

Lemma C10_witness :
  fst (scrape_schedule sample_env PfrScraper st0)
    = Ok [model_dump played_game; model_dump upcoming_game] /\
  map fst (model_dump upcoming_game) = game_keys /\
  [model_dump played_game; model_dump upcoming_game] <> [] /\
  writable sample_env output_file = true /\
  fst (main sample_env st0) = Ok tt /\
  exists body,
    files (snd (main sample_env st0)) !! output_file
      = Some (header_line +:+ String newline body) /\
    hd_error (lines (header_line +:+ String newline body)) = Some header_line.
Proof.
  assert (Hrun : fst (scrape_schedule sample_env PfrScraper st0)
                 = Ok [model_dump played_game; model_dump upcoming_game])
    by (vm_compute; reflexivity).
  assert (Hne : [model_dump played_game; model_dump upcoming_game] <> []) by discriminate.
  destruct (C10_eight_keys_in_order sample_env st0 _ Hrun) as (Hkeys & _ & Hfile).
  split; [exact Hrun|]. split; [apply Hkeys; right; left; reflexivity|].
  split; [exact Hne|]. split; [reflexivity|].
  exact (Hfile Hne eq_refl).
Defined.


(** * Further properties of the code *)

(** ** What a fetch and a scrape touch *)



(** The schedule extractor never launches the browser and never writes
    a file, whether it returns or raises. *)
Theorem scrape_schedule_no_browser_no_disk (env : Env) (self : BaseScraper) (st : State) :
  navigations (snd (scrape_schedule env self st)) = navigations st /\
  files (snd (scrape_schedule env self st)) = files st.
Proof.
  destruct (for_weeks_state env self 2023 (range 18) [] st) as (Hf & Hn & _).
  split; [exact Hn | exact Hf].
Qed.

(** ** The run stops at the first week that fails *)

Lemma for_weeks_fail_fast (env : Env) (self : BaseScraper) (year : Z)
    (pre : list Z) (i : Z) (post : list Z) (gss : list (list dict)) (e : exn) :
  Forall2 (fun j gs => week_games env self year j = Ok gs) pre gss ->
  week_games env self year i = Raise e ->
  forall games st,
    for_weeks env self year (pre ++ i :: post) games st
    = (Raise e,
       mkState (requests st ++ map (week_url year) (pre ++ [i]))
               (navigations st) (files st)).
Proof.
  intros Hpre Hi. induction Hpre as [|j gs pre gss Hj _ IH]; intros games st.
  - cbn [app]. rewrite for_weeks_cons. cbn zeta. rewrite Hi. reflexivity.
  - cbn [app]. rewrite for_weeks_cons. cbn zeta. rewrite Hj, IH.
    cbn [requests navigations files map]. rewrite <- app_assoc. reflexivity.
Qed.

(** If the pages of the weeks before week [i + 1] all yield their
    records and week [i + 1] fails (the fetch raises, or a summary on
    its page does), the run raises that week's exception; it has then
    requested the pages up to and including that week, and no later
    one. *)
Theorem scrape_schedule_fail_fast :
  forall env st pre i post gss e,
    range 18 = (pre ++ i :: post)%list ->
    Forall2 (fun j gs => week_games env PfrScraper 2023 j = Ok gs) pre gss ->
    week_games env PfrScraper 2023 i = Raise e ->
    scrape_schedule env PfrScraper st
    = (Raise e,
       mkState (requests st ++ map (week_url 2023) (pre ++ [i]))
               (navigations st) (files st)).
Proof.
  intros env st pre i post gss e Hrange Hpre Hi.
  unfold scrape_schedule. rewrite Hrange.
  exact (for_weeks_fail_fast env PfrScraper 2023 pre i post gss e Hpre Hi [] st).
Qed.

Lemma scrape_schedule_fail_fast_witness :
  range 18 = ([0; 1] ++ 2 :: [3; 4; 5; 6; 7; 8; 9; 10; 11; 12; 13; 14; 15; 16; 17])%list /\
  week_games timeout_env PfrScraper 2023 2 = Raise (TransportError Timeout) /\
  scrape_schedule timeout_env PfrScraper st0
  = (Raise (TransportError Timeout),
     mkState ["years/2023/week_1.htm"; "years/2023/week_2.htm"; "years/2023/week_3.htm"]
             [] ∅).
Proof.
  split; [reflexivity|]. split; [reflexivity|].
  apply (scrape_schedule_fail_fast timeout_env st0 [0; 1] 2
           [3; 4; 5; 6; 7; 8; 9; 10; 11; 12; 13; 14; 15; 16; 17]
           [[model_dump (mkGame 1 2023 "/boxscores/202309100atl.htm" "Atlanta Falcons"
                                "Carolina Panthers" None None false)];
            [model_dump (mkGame 2 2023 "/boxscores/202309100atl.htm" "Atlanta Falcons"
                                "Carolina Panthers" None None false)]]).
  - reflexivity.
  - repeat constructor.
  - reflexivity.
Defined.

(** ** One record per game summary *)

Lemma map_result_length {A B} (f : A -> result B) (l : list A) (bs : list B) :
  map_result f l = Ok bs -> length bs = length l.
Proof.
  intros H. apply map_result_Ok in H. symmetry. eapply Forall2_length. exact H.
Qed.

Lemma weeks_pages (env : Env) (self : BaseScraper) (year : Z)
    (weeks : list Z) (gss : list (list dict)) :
  Forall2 (fun i gs => week_games env self year i = Ok gs) weeks gss ->
  exists pages,
    Forall2 (served env self year) weeks pages /\
    map (@length dict) gss = map count_summaries pages.
Proof.
  induction 1 as [|i gs weeks gss Hi _ (pages & Hp & Hl)].
  - exists []. split; [constructor | reflexivity].
  - unfold week_games in Hi.
    destruct (http env (base_url self) (week_url year i)) as [status page|f] eqn:Hh;
      [|discriminate Hi].
    exists (page :: pages). split.
    + constructor; [exists status; exact Hh | exact Hp].
    + cbn [map]. f_equal; [|exact Hl]. apply map_result_length in Hi. exact Hi.
Qed.

(** When the extractor returns, all eighteen pages were served, and the
    number of records is the total number of game summaries on them:
    every summary gives exactly one record. *)
Theorem scrape_schedule_one_record_per_summary :
  forall env st games,
    fst (scrape_schedule env PfrScraper st) = Ok games ->
    exists pages,
      Forall2 (served env PfrScraper 2023) (range 18) pages /\
      length games = list_sum (map count_summaries pages).
Proof.
  intros env st games Hrun. unfold scrape_schedule in Hrun.
  rewrite for_weeks_result in Hrun. inv_bind Hrun. rename a into gss.
  cbn in Hrun. injection Hrun as <-.
  apply map_result_Ok in Ha. destruct (weeks_pages _ _ _ _ _ Ha) as (pages & Hp & Hl).
  exists pages. split; [exact Hp|]. rewrite length_concat, Hl. reflexivity.
Qed.

Lemma scrape_schedule_one_record_per_summary_witness :
  fst (scrape_schedule sample_env PfrScraper st0)
    = Ok [model_dump played_game; model_dump upcoming_game] /\
  exists pages,
    Forall2 (served sample_env PfrScraper 2023) (range 18) pages /\
    length [model_dump played_game; model_dump upcoming_game]
    = list_sum (map count_summaries pages).
Proof.
  assert (Hrun : fst (scrape_schedule sample_env PfrScraper st0)
                 = Ok [model_dump played_game; model_dump upcoming_game])
    by (vm_compute; reflexivity).
  split; [exact Hrun|].
  exact (scrape_schedule_one_record_per_summary sample_env st0 _ Hrun).
Defined.

(** ** More on [strip] *)



Lemma lstrip_split (s : string) :
  exists ws, all_space ws = true /\ s = ws +:+ Py.lstrip s.
Proof.
  induction s as [|c s (ws & Hws & Hs)].
  - exists "". split; reflexivity.
  - cbn [Py.lstrip]. destruct (Py.isspace c) eqn:Hc.
    + exists (String c ws). split.
      * cbn [all_space]. rewrite Hc, Hws. reflexivity.
      * rewrite append_String, <- Hs. reflexivity.
    + exists "". split; reflexivity.
Qed.

Lemma rstrip_split (s : string) :
  exists ws, all_space ws = true /\ s = Py.rstrip s +:+ ws.
Proof.
  induction s as [|c s (ws & Hws & Hs)].
  - exists "". split; reflexivity.
  - cbn [Py.rstrip]. destruct (Py.rstrip s) as [|x r] eqn:Hr.
    + rewrite append_empty in Hs. subst ws.
      destruct (Py.isspace c) eqn:Hc.
      * exists (String c s). split; [|reflexivity].
        cbn [all_space]. rewrite Hc, Hws. reflexivity.
      * exists s. split; [exact Hws | reflexivity].
    + exists ws. split; [exact Hws|]. rewrite append_String, <- Hs. reflexivity.
Qed.

Lemma rstrip_idem (s : string) : Py.rstrip (Py.rstrip s) = Py.rstrip s.
Proof.
  induction s as [|c s IH]; [reflexivity|].
  cbn [Py.rstrip]. destruct (Py.rstrip s) as [|x r] eqn:Hr.
  - destruct (Py.isspace c) eqn:Hc; [reflexivity|].
    cbn [Py.rstrip]. rewrite Hc. reflexivity.
  - change (Py.rstrip (String c (String x r)))
      with (match Py.rstrip (String x r) with
            | EmptyString => if Py.isspace c then EmptyString else String c EmptyString
            | r' => String c r'
            end).
    rewrite IH. reflexivity.
Qed.

Lemma lstrip_head (s : string) :
  Py.lstrip s = "" \/ exists c t, Py.lstrip s = String c t /\ Py.isspace c = false.
Proof.
  induction s as [|c s IH]; [left; reflexivity|].
  cbn [Py.lstrip]. destruct (Py.isspace c) eqn:Hc; [exact IH|].
  right. exists c, s. split; [reflexivity | exact Hc].
Qed.

Lemma lstrip_strip (s : string) : Py.lstrip (Py.strip s) = Py.strip s.
Proof.
  unfold Py.strip. destruct (lstrip_head s) as [-> | (c & t & -> & Hc)]; [reflexivity|].
  cbn [Py.rstrip]. destruct (Py.rstrip t); [rewrite Hc|]; cbn [Py.lstrip];
    rewrite Hc; reflexivity.
Qed.

Lemma rstrip_strip (s : string) : Py.rstrip (Py.strip s) = Py.strip s.
Proof. unfold Py.strip. apply rstrip_idem. Qed.

Lemma strip_idem (s : string) : Py.strip (Py.strip s) = Py.strip s.
Proof.
  unfold Py.strip at 1. rewrite lstrip_strip. apply rstrip_strip.
Qed.

Lemma strip_split (s : string) :
  exists ws1 ws2,
    all_space ws1 = true /\ all_space ws2 = true /\ s = ws1 +:+ Py.strip s +:+ ws2.
Proof.
  destruct (lstrip_split s) as (ws1 & H1 & Hs).
  destruct (rstrip_split (Py.lstrip s)) as (ws2 & H2 & Ht).
  exists ws1, ws2. split; [exact H1|]. split; [exact H2|].
  unfold Py.strip. rewrite <- Ht. exact Hs.
Qed.

(** ** [completed] *)

(** A record is marked completed only when it is scored, and exactly
    when, on top of that, the result link reads "final" in some casing
    with nothing but white space around it. *)
Theorem completed_iff_scored_and_final :
  (forall home away w y href hs as_ lt g,
     build_game home away w y href hs as_ lt = Ok g ->
     (completed g = true <->
      (home_score g <> None /\ away_score g <> None /\
       exists ws1 word ws2,
         lt = ws1 +:+ word +:+ ws2 /\
         all_space ws1 = true /\ all_space ws2 = true /\ Py.lower word = "final"))) /\
  (forall env self st games,
     fst (scrape_schedule env self st) = Ok games ->
     forall d, In d games ->
       getitem d "completed" = Some (PyBool true) -> scored d).
Proof.
  assert (Hbuild : forall home away w y href hs as_ lt g,
     build_game home away w y href hs as_ lt = Ok g ->
     (completed g = true <->
      (home_score g <> None /\ away_score g <> None /\
       exists ws1 word ws2,
         lt = ws1 +:+ word +:+ ws2 /\
         all_space ws1 = true /\ all_space ws2 = true /\ Py.lower word = "final"))).
  { intros home away w y href hs as_ lt g Hb.
    apply build_game_Ok in Hb as (u & _ & _ & _ & _ & _ & _ & Hsc).
    destruct (_ && _).
    - destruct Hsc as (a & h & _ & _ & Ha & Hh & Hc). rewrite Ha, Hh, Hc. split.
      + intros Hfinal. apply String.eqb_eq in Hfinal.
        split; [discriminate|]. split; [discriminate|].
        destruct (strip_split lt) as (ws1 & ws2 & H1 & H2 & Hlt).
        exists ws1, (Py.strip lt), ws2. repeat split; assumption.
      + intros (_ & _ & ws1 & word & ws2 & -> & H1 & H2 & Hw).
        rewrite (strip_final ws1 ws2 word H1 H2 Hw), Hw. reflexivity.
    - destruct Hsc as (Ha & Hh & Hc). rewrite Ha, Hh, Hc. split.
      + discriminate.
      + intros (Hn & _). congruence. }
  split; [exact Hbuild|].
  intros env self st games Hrun d Hd Hc.
  destruct (scrape_schedule env self st) as [r st'] eqn:Hs. cbn [fst] in Hrun. subst r.
  destruct (scrape_schedule_games _ _ _ _ _ Hs d Hd)
    as (i & status & soup & summary & _ & _ & _ & Hsum).
  apply scrape_summary_Ok in Hsum
    as (teams & r0 & ar & hr & aw & lk & hm & ac & hc & g & _ & _ & _ & _ & _ & _ & Hb & ->).
  cbn in Hc. injection Hc as Hc.
  apply (Hbuild _ _ _ _ _ _ _ _ _ Hb) in Hc as (Hh & Ha & _).
  destruct (home_score g) as [h|] eqn:Eh; [|congruence].
  destruct (away_score g) as [a|] eqn:Ea; [|congruence].
  exists h, a. cbn. rewrite Eh, Ea. split; reflexivity.
Qed.

Lemma completed_iff_scored_and_final_witness :
  build_game "Kansas City Chiefs" "Detroit Lions" 1 2023
             (Some "/boxscores/202309070kan.htm") "20" "21" " Final " = Ok played_game /\
  (completed played_game = true <->
   (home_score played_game <> None /\ away_score played_game <> None /\
    exists ws1 word ws2,
      " Final " = ws1 +:+ word +:+ ws2 /\
      all_space ws1 = true /\ all_space ws2 = true /\ Py.lower word = "final")) /\
  fst (scrape_schedule sample_env PfrScraper st0)
    = Ok [model_dump played_game; model_dump upcoming_game] /\
  scored (model_dump played_game).
Proof.
  assert (Hb : build_game "Kansas City Chiefs" "Detroit Lions" 1 2023
                 (Some "/boxscores/202309070kan.htm") "20" "21" " Final " = Ok played_game)
    by (vm_compute; reflexivity).
  assert (Hrun : fst (scrape_schedule sample_env PfrScraper st0)
                 = Ok [model_dump played_game; model_dump upcoming_game])
    by (vm_compute; reflexivity).
  split; [exact Hb|]. split.
  { exact (proj1 completed_iff_scored_and_final _ _ _ _ _ _ _ _ _ Hb). }
  split; [exact Hrun|].
  apply (proj2 completed_iff_scored_and_final sample_env PfrScraper st0 _ Hrun).
  - left. reflexivity.
  - reflexivity.
Defined.

(** ** Blank score cells *)



(** ** Team names are trimmed *)

(** The home team name of a record is the text of the first link of
    the home row, and the away team name the text of the first of the
    two links of the away row, each with the surrounding white space
    removed and nothing else changed: stripping the name again changes
    nothing, and the link text is the name between two runs of white
    space. *)
Theorem team_names_are_trimmed :
  forall i year summary d,
    scrape_summary i year summary = Ok d ->
    exists teams date_row away_row home_row home_link away_link link home away,
      find "table" (Some "teams") summary = Some teams /\
      find_all "tr" None teams = [date_row; away_row; home_row] /\
      find "a" None home_row = Some home_link /\
      find_all "a" None away_row = [away_link; link] /\
      home = Py.strip (text home_link) /\
      away = Py.strip (text away_link) /\
      getitem d "home_team" = Some (PyStr home) /\
      getitem d "away_team" = Some (PyStr away) /\
      Py.strip home = home /\ Py.strip away = away /\
      (exists ws1 ws2, all_space ws1 = true /\ all_space ws2 = true /\
                       text home_link = ws1 +:+ home +:+ ws2) /\
      (exists ws1 ws2, all_space ws1 = true /\ all_space ws2 = true /\
                       text away_link = ws1 +:+ away +:+ ws2).
Proof.
  intros i year summary d Hs.
  apply scrape_summary_Ok in Hs
    as (teams & r0 & ar & hr & aw & lk & hm & ac & hc & g
        & Ht & Hr & Ha & Hh & _ & _ & Hb & ->).
  apply build_game_Ok in Hb as (u & _ & _ & _ & _ & Hhome & Haway & _).
  exists teams, r0, ar, hr, hm, aw, lk, (Py.strip (text hm)), (Py.strip (text aw)).
  split; [exact Ht|]. split; [exact Hr|]. split; [exact Hh|]. split; [exact Ha|].
  split; [reflexivity|]. split; [reflexivity|].
  cbn. rewrite Hhome, Haway. split; [reflexivity|]. split; [reflexivity|].
  split; [apply strip_idem|]. split; [apply strip_idem|].
  split; apply strip_split.
Qed.

Lemma team_names_are_trimmed_witness :
  scrape_summary 0 2023 played_summary = Ok (model_dump played_game) /\
  exists teams date_row away_row home_row home_link away_link link home away,
    find "table" (Some "teams") played_summary = Some teams /\
    find_all "tr" None teams = [date_row; away_row; home_row] /\
    find "a" None home_row = Some home_link /\
    find_all "a" None away_row = [away_link; link] /\
    home = Py.strip (text home_link) /\
    away = Py.strip (text away_link) /\
    getitem (model_dump played_game) "home_team" = Some (PyStr home) /\
    getitem (model_dump played_game) "away_team" = Some (PyStr away) /\
    Py.strip home = home /\ Py.strip away = away /\
    (exists ws1 ws2, all_space ws1 = true /\ all_space ws2 = true /\
                     text home_link = ws1 +:+ home +:+ ws2) /\
    (exists ws1 ws2, all_space ws1 = true /\ all_space ws2 = true /\
                     text away_link = ws1 +:+ away +:+ ws2).
Proof.
  assert (Hs : scrape_summary 0 2023 played_summary = Ok (model_dump played_game))
    by (vm_compute; reflexivity).
  split; [exact Hs|].
  exact (team_names_are_trimmed 0 2023 played_summary _ Hs).
Defined.

(** ** Which exception a game summary raises *)

Ltac step_summary H :=
  rewrite H; cbn [mbind result_bind not_none unpack3 unpack2].

(** Structural failures.  A missing teams table, a home row without a
    link, or a row without a right-aligned cell is an [AttributeError]
    (an attribute looked up on [None]); a teams table that does not have
    exactly three rows, or an away row that does not have exactly two
    links, is a [ValueError] (a failed unpacking).  The row count is
    checked before the links, and the links before the cells. *)
Theorem scrape_summary_shape_errors (i year : Z) (summary : PageElement) :
  (find "table" (Some "teams") summary = None ->
   scrape_summary i year summary = Raise AttributeError) /\
  (forall teams,
     find "table" (Some "teams") summary = Some teams ->
     length (find_all "tr" None teams) <> 3%nat ->
     scrape_summary i year summary = Raise ValueError) /\
  (forall teams date_row away_row home_row,
     find "table" (Some "teams") summary = Some teams ->
     find_all "tr" None teams = [date_row; away_row; home_row] ->
     (length (find_all "a" None away_row) <> 2%nat ->
      scrape_summary i year summary = Raise ValueError) /\
     (length (find_all "a" None away_row) = 2%nat ->
      find "a" None home_row = None \/
      find "td" (Some "right") away_row = None \/
      find "td" (Some "right") home_row = None ->
      scrape_summary i year summary = Raise AttributeError)).
Proof.
  split; [|split].
  - intros Ht. unfold scrape_summary. step_summary Ht. reflexivity.
  - intros teams Ht Hlen. unfold scrape_summary. step_summary Ht.
    destruct (find_all "tr" None teams) as [|x1 [|x2 [|x3 [|x4 xs]]]];
      try reflexivity.
    exfalso. apply Hlen. reflexivity.
  - intros teams r0 ar hr Ht Hr. split.
    + intros Hlen. unfold scrape_summary. step_summary Ht. step_summary Hr.
      destruct (find_all "a" None ar) as [|y1 [|y2 [|y3 ys]]]; try reflexivity.
      exfalso. apply Hlen. reflexivity.
    + intros Hlen Hnone. unfold scrape_summary. step_summary Ht. step_summary Hr.
      destruct (find_all "a" None ar) as [|y1 [|y2 [|y3 ys]]]; try discriminate Hlen.
      cbn [mbind result_bind not_none unpack3 unpack2].
      destruct (find "a" None hr) as [hm|]; [|reflexivity].
      cbn [mbind result_bind not_none].
      destruct (find "td" (Some "right") ar) as [ac|]; [|reflexivity].
      cbn [mbind result_bind not_none].
      destruct (find "td" (Some "right") hr) as [hc|]; [|reflexivity].
      destruct Hnone as [H | [H | H]]; discriminate H.
Qed.

Lemma scrape_summary_shape_errors_witness :
  find "table" (Some "teams") (Tag "div" ["game_summary"] [] []) = None /\
  scrape_summary 0 2023 (Tag "div" ["game_summary"] [] []) = Raise AttributeError /\
  (exists teams,
     find "table" (Some "teams") two_row_summary = Some teams /\
     length (find_all "tr" None teams) <> 3%nat) /\
  scrape_summary 0 2023 two_row_summary = Raise ValueError /\
  scrape_summary 0 2023 no_home_link_summary = Raise AttributeError.
Proof.
  split; [reflexivity|]. split.
  { apply (proj1 (scrape_summary_shape_errors 0 2023 _)). reflexivity. }
  split.
  { eexists. split; [reflexivity|]. vm_compute. discriminate. }
  split.
  { eapply (proj1 (proj2 (scrape_summary_shape_errors 0 2023 two_row_summary))).
    - reflexivity.
    - vm_compute. discriminate. }
  eapply (proj2 (proj2 (proj2 (scrape_summary_shape_errors 0 2023 no_home_link_summary))
                  _ _ _ _ eq_refl eq_refl)).
  - reflexivity.
  - left. reflexivity.
Defined.

(** On a well-shaped summary the outcome is decided by the link target
    and the two score texts.  A result link without [href] is a
    [ValidationError], even for a game without scores.  Otherwise, if
    either score text is empty the record is returned unplayed; if both
    are non-empty and one is not an integer literal the summary raises
    [ValueError]; and if both parse, the record carries both numbers. *)
Theorem scrape_summary_on_shape :
  forall i year summary teams date_row away_row home_row away link home away_cell home_cell,
    summary_shape summary teams date_row away_row home_row
                  away link home away_cell home_cell ->
    let home_name := Py.strip (text home) in
    let away_name := Py.strip (text away) in
    let hs := Py.strip (text home_cell) in
    let as_ := Py.strip (text away_cell) in
    (get "href" link = None ->
     scrape_summary i year summary = Raise ValidationError) /\
    (forall u,
       get "href" link = Some u ->
       (hs = "" \/ as_ = "" ->
        scrape_summary i year summary
        = Ok (model_dump (mkGame (i + 1) year u home_name away_name None None false))) /\
       (hs <> "" -> as_ <> "" ->
        Py.int_of_str as_ = None \/ Py.int_of_str hs = None ->
        scrape_summary i year summary = Raise ValueError) /\
       (forall a h,
          hs <> "" -> as_ <> "" ->
          Py.int_of_str as_ = Some a -> Py.int_of_str hs = Some h ->
          scrape_summary i year summary
          = Ok (model_dump (mkGame (i + 1) year u home_name away_name (Some h) (Some a)
                                   (String.eqb (Py.lower (Py.strip (text link))) "final"))))).
Proof.
  intros i year summary teams r0 ar hr aw lk hm ac hc (Ht & Hr & Ha & Hh & Hac & Hhc).
  cbn zeta.
  assert (Hrun : scrape_summary i year summary
                 = (game ← build_game (Py.strip (text hm)) (Py.strip (text aw)) (i + 1) year
                                      (get "href" lk) (Py.strip (text hc))
                                      (Py.strip (text ac)) (text lk);
                    mret (model_dump game))).
  { unfold scrape_summary. step_summary Ht. step_summary Hr. step_summary Ha.
    step_summary Hh. step_summary Hac. step_summary Hhc. reflexivity. }
  rewrite Hrun. unfold build_game. split.
  - intros ->. reflexivity.
  - intros u ->. cbn [Game_init mbind result_bind]. split; [|split].
    + intros [-> | ->]; cbn [Py.truthy andb]; [reflexivity|].
      rewrite andb_false_r. reflexivity.
    + intros Hhs Has Hnone.
      destruct (Py.strip (text hc)) as [|c1 s1] eqn:E1; [congruence|].
      destruct (Py.strip (text ac)) as [|c2 s2] eqn:E2; [congruence|].
      cbn [Py.truthy andb]. unfold int.
      destruct (Py.int_of_str (String c2 s2)) as [a|]; cbn [mbind result_bind];
        [|reflexivity].
      destruct (Py.int_of_str (String c1 s1)) as [h|]; cbn [mbind result_bind];
        [|reflexivity].
      destruct Hnone; discriminate.
    + intros a h Hhs Has Hia Hih.
      destruct (Py.strip (text hc)) as [|c1 s1] eqn:E1; [congruence|].
      destruct (Py.strip (text ac)) as [|c2 s2] eqn:E2; [congruence|].
      cbn [Py.truthy andb]. unfold int. rewrite Hia, Hih. reflexivity.
Qed.

Lemma scrape_summary_on_shape_witness :
  (exists teams date_row away_row home_row away link home away_cell home_cell,
     summary_shape no_href_summary teams date_row away_row home_row
                   away link home away_cell home_cell /\
     get "href" link = None) /\
  scrape_summary 0 2023 no_href_summary = Raise ValidationError /\
  scrape_summary 0 2023 played_summary = Ok (model_dump played_game).
Proof.
  assert (Hshape : summary_shape no_href_summary
            (Tag "table" ["teams"] []
               [ Tag "tbody" [] []
                   [ date_row;
                     team_row ["winner"] "Detroit Lions" ""
                              [Tag "a" [] [] [NavigableString "Preview"]];
                     team_row ["loser"] "Kansas City Chiefs" "" [NavigableString " "] ] ])
            date_row
            (team_row ["winner"] "Detroit Lions" ""
                      [Tag "a" [] [] [NavigableString "Preview"]])
            (team_row ["loser"] "Kansas City Chiefs" "" [NavigableString " "])
            (anchor "/teams/club/2023.htm" "Detroit Lions")
            (Tag "a" [] [] [NavigableString "Preview"])
            (anchor "/teams/club/2023.htm" "Kansas City Chiefs")
            (Tag "td" ["right"] [] [NavigableString ""])
            (Tag "td" ["right"] [] [NavigableString ""])).
  { repeat split. }
  assert (Hplayed : summary_shape played_summary
            (Tag "table" ["teams"] []
               [ Tag "tbody" [] []
                   [ date_row;
                     team_row ["winner"] "Detroit Lions" "21"
                              [anchor "/boxscores/202309070kan.htm" " Final "];
                     team_row ["loser"] "Kansas City Chiefs" "20" [NavigableString " "] ] ])
            date_row
            (team_row ["winner"] "Detroit Lions" "21"
                      [anchor "/boxscores/202309070kan.htm" " Final "])
            (team_row ["loser"] "Kansas City Chiefs" "20" [NavigableString " "])
            (anchor "/teams/club/2023.htm" "Detroit Lions")
            (anchor "/boxscores/202309070kan.htm" " Final ")
            (anchor "/teams/club/2023.htm" "Kansas City Chiefs")
            (Tag "td" ["right"] [] [NavigableString "21"])
            (Tag "td" ["right"] [] [NavigableString "20"])).
  { repeat split. }
  split; [|split].
  - do 9 eexists. split; [exact Hshape | reflexivity].
  - apply (proj1 (scrape_summary_on_shape 0 2023 _ _ _ _ _ _ _ _ _ _ Hshape)).
    reflexivity.
  - apply (proj2 (proj2 (proj2 (scrape_summary_on_shape 0 2023 _ _ _ _ _ _ _ _ _ _ Hplayed)
                           "/boxscores/202309070kan.htm" eq_refl)) 21 20);
      first [discriminate | reflexivity].
Defined.

(** ** What [save_to_csv] does to the rest of the state *)

Lemma forallb_false_split {A} (p : A -> bool) (l : list A) :
  forallb p l = false ->
  exists pre x post, l = (pre ++ x :: post)%list /\ forallb p pre = true /\ p x = false.
Proof.
  induction l as [|a l IH]; [discriminate|].
  cbn [forallb]. destruct (p a) eqn:Ha; cbn [andb].
  - intros H. destruct (IH H) as (pre & x & post & -> & Hpre & Hx).
    exists (a :: pre), x, post. cbn [forallb app]. rewrite Ha, Hpre. repeat split. exact Hx.
  - intros _. exists [], a, l. repeat split. exact Ha.
Qed.



(** After a write that returned, writing again to the same file keeps
    only the second write: the file is truncated each time, so the
    outcome and the state are those of the second write alone. *)
Theorem save_to_csv_last_write_wins :
  forall (env : Env) (filename : string) (data1 data2 : list dict) (st : State),
    fst (save_to_csv env filename data1 st) = Ok tt ->
    data2 <> [] ->
    (_ ← save_to_csv env filename data1; save_to_csv env filename data2) st
    = save_to_csv env filename data2 st.
Proof.
  intros env filename data1 data2 st H1 H2.
  destruct data1 as [|f1 r1]; [discriminate H1|].
  destruct data2 as [|f2 r2]; [congruence|].
  destruct (writable env filename) eqn:Hw.
  - rewrite M_bind_run. rewrite (save_to_csv_written env filename f1 r1 st Hw) in H1 |- *.
    cbn [fst] in H1. rewrite H1.
    rewrite !(save_to_csv_written env filename f2 r2 _ Hw).
    cbn [requests navigations files]. rewrite insert_insert_eq. reflexivity.
  - unfold save_to_csv in H1. rewrite M_bind_run in H1. unfold open_w in H1.
    rewrite Hw in H1. discriminate H1.
Qed.

Lemma save_to_csv_last_write_wins_witness :
  fst (save_to_csv sample_env "roster.csv" [roster_a; roster_b] st0) = Ok tt /\
  [roster_b] <> [] /\
  (_ ← save_to_csv sample_env "roster.csv" [roster_a; roster_b];
   save_to_csv sample_env "roster.csv" [roster_b]) st0
  = save_to_csv sample_env "roster.csv" [roster_b] st0.
Proof.
  assert (H1 : fst (save_to_csv sample_env "roster.csv" [roster_a; roster_b] st0) = Ok tt)
    by (vm_compute; reflexivity).
  assert (H2 : [roster_b] <> []) by discriminate.
  split; [exact H1|]. split; [exact H2|].
  exact (save_to_csv_last_write_wins sample_env "roster.csv" _ _ st0 H1 H2).
Defined.

(** Only the keys of the first record are ever read: two lists that
    start with the same record and whose later records carry the same
    values, under whatever keys, are written identically.  Uniformity
    is the caller's business; it is never checked. *)
Theorem save_to_csv_later_keys_ignored :
  forall (env : Env) (filename : string) (first : dict) (rest rest' : list dict) (st : State),
    map values rest = map values rest' ->
    save_to_csv env filename (first :: rest) st
    = save_to_csv env filename (first :: rest') st.
Proof.
  intros env filename first rest rest' st Hv.
  unfold save_to_csv. cbn [map]. rewrite Hv. reflexivity.
Qed.

Lemma save_to_csv_later_keys_ignored_witness :
  map values [roster_b] = map values [roster_b_renamed] /\
  save_to_csv sample_env "roster.csv" [roster_a; roster_b] st0
  = save_to_csv sample_env "roster.csv" [roster_a; roster_b_renamed] st0.
Proof.
  split; [reflexivity|].
  exact (save_to_csv_later_keys_ignored sample_env "roster.csv" roster_a
           [roster_b] [roster_b_renamed] st0 eq_refl).
Defined.

(** ** The run as a whole: a complete file or none *)



(** ** Reading the file back *)

Lemma no_newline_lacks (s : string) : no_newline s = lacks newline s.
Proof. induction s as [|c s IH]; [reflexivity|]. cbn. rewrite IH. reflexivity. Qed.

Lemma split_on_lacks (sep : ascii) (p : string) :
  lacks sep p = true -> split_on sep p = [p].
Proof.
  induction p as [|c p IH]; [reflexivity|].
  cbn [lacks split_on]. intros H. apply andb_prop in H as [Hc Hp].
  destruct (Ascii.eqb c sep); [discriminate Hc|]. rewrite (IH Hp). reflexivity.
Qed.

Lemma split_on_app (sep : ascii) (p rest : string) :
  lacks sep p = true ->
  split_on sep (p +:+ String sep rest) = p :: split_on sep rest.
Proof.
  induction p as [|c p IH]; intros H.
  - rewrite append_empty. cbn [split_on]. rewrite Ascii.eqb_refl. reflexivity.
  - cbn [lacks] in H. apply andb_prop in H as [Hc Hp].
    rewrite append_String. cbn [split_on].
    destruct (Ascii.eqb c sep); [discriminate Hc|]. rewrite (IH Hp). reflexivity.
Qed.

(** Joining with commas and splitting at commas are inverse on
    non-empty lists of comma-free strings. *)
Lemma split_join (parts : list string) :
  parts <> [] ->
  Forall (fun p => lacks "," p = true) parts ->
  split_on "," (String.concat "," parts) = parts.
Proof.
  intros Hne Hall. induction Hall as [|p parts Hp Hparts IH]; [congruence|].
  cbn [String.concat]. destruct parts as [|q parts].
  - apply split_on_lacks. exact Hp.
  - change (p ++ "," ++ String.concat "," (q :: parts))%string
      with (p +:+ String "," (String.concat "," (q :: parts))).
    rewrite (split_on_app _ _ _ Hp). f_equal. apply IH. discriminate.
Qed.

Lemma plain_record_fields (d : dict) :
  plain_record d = true ->
  d <> [] /\
  Forall (fun kv => lacks "," (fst kv) = true /\ lacks newline (fst kv) = true /\
                    lacks "," (show (snd kv)) = true /\ lacks newline (show (snd kv)) = true) d.
Proof.
  destruct d as [|kv d]; [discriminate|]. unfold plain_record. intros H.
  apply andb_prop in H as [H _].
  split; [discriminate|]. rewrite forallb_forall in H.
  apply List.Forall_forall. intros x Hx. specialize (H x Hx).
  apply andb_prop in H as [H H4]. apply andb_prop in H as [H H3].
  apply andb_prop in H as [H1 H2]. repeat split; assumption.
Qed.


Lemma plain_record_one_line (d : dict) : plain_record d = true -> one_line_record d = true.
Proof.
  intros H. apply plain_record_fields in H as [_ H].
  unfold one_line_record. apply forallb_forall. intros kv Hkv.
  rewrite List.Forall_forall in H. destruct (H kv Hkv) as (_ & H2 & _ & H4).
  rewrite !no_newline_lacks, H2, H4. reflexivity.
Qed.

Lemma split_csv_header (d : dict) :
  plain_record d = true -> split_on "," (csv_header d) = map show (keys d).
Proof.
  intros H. apply plain_record_fields in H as [Hne H].
  unfold csv_header, keys. rewrite map_map. cbn [show]. apply split_join.
  - destruct d; [congruence | discriminate].
  - apply Forall_map. eapply List.Forall_impl; [|exact H]. intros kv (H1 & _). exact H1.
Qed.

Lemma split_csv_row (d : dict) :
  plain_record d = true -> split_on "," (csv_row d) = map show (values d).
Proof.
  intros H. apply plain_record_fields in H as [Hne H].
  unfold csv_row. apply split_join.
  - unfold values. destruct d; [congruence | discriminate].
  - unfold values. rewrite map_map. apply Forall_map.
    eapply List.Forall_impl; [|exact H]. intros kv (_ & _ & H3 & _). exact H3.
Qed.



(** ** Distinct weeks, distinct pages *)

Lemma append_inj_l (a b c : string) : a +:+ b = a +:+ c -> b = c.
Proof.
  induction a as [|x a IH]; [rewrite !append_empty; auto|].
  rewrite !append_String. intros [= H]. exact (IH H).
Qed.

Lemma length_append' (a b : string) :
  String.length (a +:+ b) = (String.length a + String.length b)%nat.
Proof.
  induction a as [|x a IH]; [reflexivity|].
  rewrite append_String. cbn [String.length]. rewrite IH. reflexivity.
Qed.

Lemma append_inj_r (s b c : string) : b +:+ s = c +:+ s -> b = c.
Proof.
  revert c. induction b as [|x b IH]; intros [|y c] H.
  - reflexivity.
  - exfalso. apply (f_equal String.length) in H.
    rewrite append_empty, append_String in H. cbn [String.length] in H.
    rewrite length_append' in H. lia.
  - exfalso. apply (f_equal String.length) in H.
    rewrite append_empty, append_String in H. cbn [String.length] in H.
    rewrite length_append' in H. lia.
  - rewrite !append_String in H. injection H as -> H. f_equal. exact (IH c H).
Qed.

Lemma to_int_proper (n : Z) :
  Z.to_int n <> Decimal.Pos Decimal.Nil /\ Z.to_int n <> Decimal.Neg Decimal.Nil.
Proof.
  destruct n as [|p|p]; cbn; split; try discriminate;
    intros [= H]; exact (Unsigned.to_uint_nonnil p H).
Qed.

Lemma str_of_int_inj (n m : Z) : Py.str_of_int n = Py.str_of_int m -> n = m.
Proof.
  unfold Py.str_of_int. intros H.
  destruct (to_int_proper n) as [Hn1 Hn2]. destruct (to_int_proper m) as [Hm1 Hm2].
  pose proof (NilZero.isi (Z.to_int n) Hn1 Hn2) as En.
  pose proof (NilZero.isi (Z.to_int m) Hm1 Hm2) as Em.
  rewrite H, Em in En. injection En as En.
  rewrite <- (DecimalZ.of_to n), <- (DecimalZ.of_to m), En. reflexivity.
Qed.

(** For any season, the pages of two different weeks have different
    urls, so a run never asks for the same page twice. *)
Theorem week_url_injective :
  (forall year i j, week_url year i = week_url year j -> i = j) /\
  (forall year n, List.NoDup (map (week_url year) (range n))).
Proof.
  assert (Hinj : forall year i j, week_url year i = week_url year j -> i = j).
  { intros year i j H. unfold week_url in H.
    do 3 apply append_inj_l in H. apply append_inj_r in H.
    apply str_of_int_inj in H. lia. }
  split; [exact Hinj|].
  intros year n. unfold range. rewrite map_map. apply Finite.Injective_map_NoDup.
  - intros a b H. apply Hinj in H. lia.
  - apply List.seq_NoDup.
Qed.

Lemma week_url_injective_witness :
  week_url 2023 4 = week_url 2023 4 /\ 4 = 4 /\
  List.NoDup (map (week_url 2023) (range 18)).
Proof.
  split; [reflexivity|]. split.
  - exact (proj1 week_url_injective 2023 4 4 eq_refl).
  - exact (proj2 week_url_injective 2023 18%nat).
Defined.

(** ** Eight fields on every line *)

Lemma string_of_uint_lacks (c : ascii) (d : Decimal.uint) :
  lacks c "0123456789" = true -> lacks c (NilEmpty.string_of_uint d) = true.
Proof.
  intros H. cbn [lacks] in H.
  repeat (let Hx := fresh "Hd" in apply andb_prop in H as [Hx H]).
  induction d as [|d IH|d IH|d IH|d IH|d IH|d IH|d IH|d IH|d IH|d IH];
    cbn [NilEmpty.string_of_uint lacks]; [reflexivity|..]; rewrite IH;
    rewrite ?Hd, ?Hd0, ?Hd1, ?Hd2, ?Hd3, ?Hd4, ?Hd5, ?Hd6, ?Hd7, ?Hd8; reflexivity.
Qed.

Lemma str_of_int_lacks (c : ascii) (n : Z) :
  lacks c "-0123456789" = true -> lacks c (Py.str_of_int n) = true.
Proof.
  intros H. cbn [lacks] in H. apply andb_prop in H as [Hminus Hdigits].
  change (lacks c "0123456789" = true) in Hdigits.
  assert (Hu : forall d, lacks c (NilZero.string_of_uint d) = true).
  { intros d. destruct d; try exact (string_of_uint_lacks c _ Hdigits).
    cbn [NilZero.string_of_uint]. cbn [lacks] in Hdigits |- *. apply andb_prop in Hdigits as [H0 _]. rewrite H0. reflexivity. }
  unfold Py.str_of_int, NilZero.string_of_int.
  destruct (Z.to_int n) as [d|d]; [apply Hu|].
  cbn [lacks]. rewrite Hminus, Hu. reflexivity.
Qed.

Lemma plain_model_dump (g : Game) :
  (forall s, In s [url g; home_team g; away_team g] ->
             lacks "," s = true /\ lacks newline s = true) ->
  printable_record (model_dump g) = true ->
  plain_record (model_dump g) = true.
Proof.
  intros H Hprint.
  change (plain_record (model_dump g))
    with (forallb (fun kv => lacks "," (fst kv) && lacks newline (fst kv)
                             && lacks "," (show (snd kv)) && lacks newline (show (snd kv)))
                  (model_dump g)
          && printable_record (model_dump g)).
  rewrite Hprint, andb_true_r.
  destruct (H (url g) (or_introl eq_refl)) as [Hu1 Hu2].
  destruct (H (home_team g) (or_intror (or_introl eq_refl))) as [Hh1 Hh2].
  destruct (H (away_team g) (or_intror (or_intror (or_introl eq_refl)))) as [Ha1 Ha2].
  unfold model_dump. apply forallb_forall.
  intros kv Hkv. cbn [In] in Hkv.
  repeat (destruct Hkv as [<- | Hkv]); [..|destruct Hkv]; cbn [fst snd show];
    repeat (apply andb_true_intro; split); try reflexivity; try assumption;
    try (apply str_of_int_lacks; reflexivity).
  all: match goal with
       | |- context [opt_int ?o] => destruct o
       | |- context [if ?b then _ else _] => destruct b
       end;
    cbn [opt_int show]; first [reflexivity | apply str_of_int_lacks; reflexivity].
Qed.

Lemma main_file (env : Env) (st : State) (games : list dict) :
  fst (scrape_schedule env PfrScraper st) = Ok games ->
  games <> [] ->
  writable env output_file = true ->
  fst (main env st) = Ok tt /\
  files (snd (main env st)) !! output_file
  = Some (unlines (csv_header (hd [] games) :: map csv_row games)).
Proof.
  intros Hrun Hne Hw.
  pose proof (scrape_schedule_printable env PfrScraper st _ Hrun) as Hp.
  unfold main. rewrite M_bind_run. fold output_file.
  destruct (scrape_schedule env PfrScraper st) as [r st']. cbn [fst] in Hrun. subst r.
  destruct games as [|first rest]; [congruence|].
  rewrite (save_to_csv_run env output_file first rest st' Hw Hp). cbn [fst snd files hd].
  split; [reflexivity | apply lookup_insert_eq].
Qed.

(** When the run succeeds and no url or team name contains a comma or a
    newline, the output file has one line more than there are records,
    and every line, the header included, splits at its commas into
    exactly eight fields. *)
Theorem main_eight_fields_per_line :
  forall env st games,
    fst (scrape_schedule env PfrScraper st) = Ok games ->
    games <> [] ->
    writable env output_file = true ->
    (forall d k s, In d games -> getitem d k = Some (PyStr s) ->
                   lacks "," s = true /\ lacks newline s = true) ->
    exists content,
      files (snd (main env st)) !! output_file = Some content /\
      length (lines content) = S (length games) /\
      Forall (fun line => length (split_on "," line) = 8%nat) (lines content).
Proof.
  intros env st games Hrun Hne Hw Hclean.
  destruct (main_file env st games Hrun Hne Hw) as [_ Hfile].
  assert (Hplain : forall d, In d games -> plain_record d = true /\ length d = 8%nat).
  { intros d Hd. pose proof (Hclean d) as Hd'.
    pose proof (scrape_schedule_printable env PfrScraper st _ Hrun) as Hprint.
    rewrite forallb_forall in Hprint. specialize (Hprint d Hd).
    destruct (scrape_schedule env PfrScraper st) as [r st'] eqn:Hs.
    cbn [fst] in Hrun. subst r.
    destruct (scrape_schedule_games _ _ _ _ _ Hs d Hd)
      as (i & status & soup & summary & _ & _ & _ & Hsum).
    apply scrape_summary_Ok in Hsum
      as (teams & r0 & ar & hr & aw & lk & hm & ac & hc & g & _ & _ & _ & _ & _ & _ & _ & ->).
    split; [|reflexivity]. apply plain_model_dump; [|exact Hprint].
    intros s [<- | [<- | [<- | []]]].
    - apply (Hd' "url"); [exact Hd | reflexivity].
    - apply (Hd' "home_team"); [exact Hd | reflexivity].
    - apply (Hd' "away_team"); [exact Hd | reflexivity]. }
  destruct games as [|first rest]; [congruence|]. cbn [hd] in Hfile.
  assert (Hlines : lines (unlines (csv_header first :: map csv_row (first :: rest)))
                   = csv_header first :: map csv_row (first :: rest)).
  { apply lines_unlines. constructor.
    - apply one_line_record_header, plain_record_one_line, Hplain. left. reflexivity.
    - apply Forall_map. apply List.Forall_forall. intros d Hd.
      apply one_line_record_row, plain_record_one_line, Hplain. exact Hd. }
  eexists. split; [exact Hfile|]. rewrite Hlines. split.
  - cbn [length]. rewrite length_map. reflexivity.
  - constructor.
    + destruct (Hplain first (or_introl eq_refl)) as [Hp Hl].
      rewrite (split_csv_header first Hp). unfold keys. rewrite !length_map. exact Hl.
    + apply Forall_map. apply List.Forall_forall. intros d Hd.
      destruct (Hplain d Hd) as [Hp Hl].
      rewrite (split_csv_row d Hp). unfold values. rewrite !length_map. exact Hl.
Qed.

Lemma main_eight_fields_per_line_witness :
  fst (scrape_schedule sample_env PfrScraper st0)
    = Ok [model_dump played_game; model_dump upcoming_game] /\
  writable sample_env output_file = true /\
  exists content,
    files (snd (main sample_env st0)) !! output_file = Some content /\
    length (lines content) = 3%nat /\
    Forall (fun line => length (split_on "," line) = 8%nat) (lines content).
Proof.
  assert (Hrun : fst (scrape_schedule sample_env PfrScraper st0)
                 = Ok [model_dump played_game; model_dump upcoming_game])
    by (vm_compute; reflexivity).
  assert (Hne : [model_dump played_game; model_dump upcoming_game] <> []) by discriminate.
  split; [exact Hrun|]. split; [reflexivity|].
  apply (main_eight_fields_per_line sample_env st0 _ Hrun Hne eq_refl).
  intros d k s [<- | [<- | []]] Hget;
    unfold getitem, model_dump, played_game, upcoming_game in Hget; cbn [fst snd] in Hget;
    repeat match type of Hget with
           | (if String.eqb ?a ?b then _ else _) = _ =>
               destruct (String.eqb a b);
               [ try discriminate Hget; injection Hget as <-; split; vm_compute; reflexivity | ]
           end; discriminate Hget.
Defined.

(** ** Commas inside values are not escaped *)





